(** * openml.evaluations.functions: listing evaluations and joining setups

    A shallow embedding of [openml/evaluations/functions.py].  Python values
    are a small inductive type, dictionaries are insertion-ordered association
    lists, exceptions are an error result, and the network (the transport, the
    paginating helper and the setup endpoint) is a record of collaborators
    whose calls are recorded in a trace. *)

From Stdlib Require Import ZArith List String Ascii Bool Lia DecimalString
  DecimalZ.
Import ListNotations.
Local Open Scope string_scope.
Local Open Scope Z_scope.

Set Implicit Arguments.
Set Warnings "-register-all".

(** ** Python values *)

(** Dictionary keys and column labels: the program only uses strings (XML
    tags, field and column names) and integers (run identifiers, row
    numbers). *)
Inductive key : Type :=
| KStr (s : string)
| KInt (z : Z).

(** A Python float is a 64-bit IEEE double, kept as its bit pattern. *)
Inductive pyval : Type :=
| PNone
| PBool (b : bool)
| PInt (z : Z)
| PFloat (bits : Z)
| PStr (s : string)
| PList (l : list pyval)
| PTuple (l : list pyval)
| PDict (d : list (key * pyval))
| PEvaluation (args : list pyval).

(** The quiet NaN pandas uses for a missing cell. *)
Definition NaN : pyval := PFloat 0x7FF8000000000000.

Definition key_eqb (a b : key) : bool :=
  match a, b with
  | KStr s, KStr t => String.eqb s t
  | KInt x, KInt y => Z.eqb x y
  | _, _ => false
  end.

(** Structural equality of values; on integer identifiers and strings it is
    Python's [==]. *)
Fixpoint pyval_eqb (a b : pyval) {struct a} : bool :=
  let fix list_eqb (xs ys : list pyval) {struct xs} : bool :=
    match xs, ys with
    | [], [] => true
    | x :: xs', y :: ys' => pyval_eqb x y && list_eqb xs' ys'
    | _, _ => false
    end in
  let fix dict_eqb (xs ys : list (key * pyval)) {struct xs} : bool :=
    match xs, ys with
    | [], [] => true
    | (k, x) :: xs', (k', y) :: ys' =>
        key_eqb k k' && pyval_eqb x y && dict_eqb xs' ys'
    | _, _ => false
    end in
  match a, b with
  | PNone, PNone => true
  | PBool x, PBool y => Bool.eqb x y
  | PInt x, PInt y => Z.eqb x y
  | PFloat x, PFloat y => Z.eqb x y
  | PStr x, PStr y => String.eqb x y
  | PList x, PList y => list_eqb x y
  | PTuple x, PTuple y => list_eqb x y
  | PDict x, PDict y => dict_eqb x y
  | PEvaluation x, PEvaluation y => list_eqb x y
  | _, _ => false
  end.

(** [x is None] *)
Definition is_none (v : pyval) : bool :=
  match v with PNone => true | _ => false end.

(** A float whose exponent bits are all set and whose fraction is not zero. *)
Definition is_nan (v : pyval) : bool :=
  match v with
  | PFloat bits =>
      (Z.land bits 0x7FF0000000000000 =? 0x7FF0000000000000) &&
      negb (Z.land bits 0x000FFFFFFFFFFFFF =? 0)
  | _ => false
  end.

(** [pd.isna(x)] on a scalar: None or NaN. *)
Definition is_null (v : pyval) : bool := is_none v || is_nan v.

(** ** Exceptions and results *)

Inductive exn : Type :=
| ValueError (msg : string)
| TypeError (msg : string)
| KeyError (k : key)
| IndexError
| AttributeError
| AssertionError
| OtherError (name : string).

Inductive result (A : Type) : Type :=
| Ok (a : A)
| Raise (e : exn).
Arguments Ok {A} a.
Arguments Raise {A} e.

Definition rbind {A B} (r : result A) (k : A -> result B) : result B :=
  match r with
  | Ok a => k a
  | Raise e => Raise e
  end.

Declare Scope res_scope.
Delimit Scope res_scope with res.
Notation "x <- c ;; k" := (rbind c (fun x => k))
  (at level 61, c at next level, right associativity) : res_scope.

(** ** Ordered dictionaries *)

Definition dict := list (key * pyval).

Fixpoint dict_get (k : key) (d : dict) : option pyval :=
  match d with
  | [] => None
  | (k', v) :: d' => if key_eqb k k' then Some v else dict_get k d'
  end.

Definition dict_mem (k : key) (d : dict) : bool :=
  match dict_get k d with Some _ => true | None => false end.

(** [d[k] = v]: an existing key keeps its place and takes the new value, a
    new key goes to the end. *)
Fixpoint dict_set (k : key) (v : pyval) (d : dict) : dict :=
  match d with
  | [] => [(k, v)]
  | (k', v') :: d' =>
      if key_eqb k k' then (k', v) :: d' else (k', v') :: dict_set k v d'
  end.

Definition dict_keys (d : dict) : list key := map fst d.
Definition dict_values (d : dict) : list pyval := map snd d.

(** ** Builtins *)

Definition dquote : string := String (ascii_of_nat 34) EmptyString.

(** Decimal rendering of an integer, [str(int(i))]. *)
Definition str_of_Z (z : Z) : string := NilZero.string_of_int (Z.to_int z).

(** [sep.join(parts)] *)
Definition join (sep : string) (parts : list string) : string :=
  String.concat sep parts.

(** Python's index normalisation for [seq[i]]. *)
Definition seq_index {A} (l : list A) (i : Z) : result A :=
  let n := Z.of_nat (List.length l) in
  let j := if i <? 0 then i + n else i in
  if (j <? 0) || (n <=? j) then Raise IndexError
  else match nth_error l (Z.to_nat j) with
       | Some x => Ok x
       | None => Raise IndexError
       end.

Definition not_subscriptable : exn :=
  TypeError "object is not subscriptable".

(** [v[k]] *)
Definition getitem (v : pyval) (k : key) : result pyval :=
  match v with
  | PDict d =>
      match dict_get k d with
      | Some x => Ok x
      | None => Raise (KeyError k)
      end
  | PList l | PTuple l =>
      match k with
      | KInt i => seq_index l i
      | KStr _ => Raise (TypeError "indices must be integers")
      end
  | PStr s =>
      match k with
      | KInt i =>
          r <- seq_index (list_ascii_of_string s) i ;;
          Ok (PStr (String r EmptyString))
      | KStr _ => Raise (TypeError "indices must be integers")
      end
  | _ => Raise not_subscriptable
  end%res.

Definition is_substring (k s : string) : bool :=
  match String.index 0 k s with Some _ => true | None => false end.

(** [k in v] for a string [k] *)
Definition contains (k : string) (v : pyval) : result bool :=
  match v with
  | PDict d => Ok (dict_mem (KStr k) d)
  | PList l | PTuple l => Ok (existsb (pyval_eqb (PStr k)) l)
  | PStr s => Ok (is_substring k s)
  | _ => Raise (TypeError "argument is not iterable")
  end.

(** ** The network and its trace *)

Inductive event : Type :=
| HttpGet (api_call : string)
| ListSetups (setup : list pyval).

Definition trace := list event.

(** A computation that may touch the network: it extends the trace of calls
    performed so far and returns a value or raises.  The trace survives an
    exception. *)
Definition M (A : Type) : Type := trace -> result A * trace.

Definition ret {A} (a : A) : M A := fun t => (Ok a, t).
Definition throw {A} (e : exn) : M A := fun t => (Raise e, t).
Definition lift {A} (r : result A) : M A := fun t => (r, t).
Definition bind {A B} (c : M A) (k : A -> M B) : M B :=
  fun t =>
    match c t with
    | (Ok a, t') => k a t'
    | (Raise e, t') => (Raise e, t')
    end.

Declare Scope io_scope.
Delimit Scope io_scope with io.
Notation "x <- c ;; k" := (bind c (fun x => k))
  (at level 61, c at next level, right associativity) : io_scope.

(** ** Tables *)

(** A pandas frame with the default row index [0 .. n-1]: column labels and
    one list of cells per row.  Cells hold the Python value; pandas' dtype
    coercions are not represented. *)
Record DataFrame : Type := mkFrame {
  columns : list key;
  data : list (list pyval)
}.

(** [pd.DataFrame()] *)
Definition empty_frame : DataFrame := mkFrame [] [].

(** What a listing returns: a mapping keyed by run identifier, or a frame. *)
Inductive listing : Type :=
| Mapping (d : dict)
| Frame (df : DataFrame).

(** [len(evals)] *)
Definition listing_len (l : listing) : nat :=
  match l with
  | Mapping d => List.length d
  | Frame df => List.length (data df)
  end.

(** ** Filters *)

Record filters : Type := mkFilters {
  f_function : string;
  f_offset : option Z;
  f_size : option Z;
  f_id : option (list Z);
  f_task : option (list Z);
  f_setup : option (list Z);
  f_flow : option (list Z);
  f_uploader : option (list Z);
  f_tag : option string;
  f_sort_order : option string;
  f_per_fold : option string
}.

(** The signature of [_list_evaluations]: function, id, task, setup, flow,
    uploader, sort_order, output_format and the remaining keyword
    arguments. *)
Definition listing_call : Type :=
  string -> option (list Z) -> option (list Z) -> option (list Z) ->
  option (list Z) -> option (list Z) -> option string -> string ->
  list (string * pyval) -> M listing.

(** ** Collaborators

    Everything the module imports and does not define: the transport, the
    XML and JSON decoders, the number conversions, [str] on containers, the
    paginating helper and the setup endpoint.  The theorems hold for every
    choice of them. *)
Record Collaborators : Type := mkCollaborators {
  (** the body the server sends for a GET, given the calls made so far *)
  http_get : trace -> string -> result string;
  (** [xmltodict.parse(xml_string, force_list=force_list)] *)
  xml_parse : string -> pyval -> result dict;
  (** [int(x)] *)
  py_int : pyval -> result Z;
  (** [float(x)], the bits of the double *)
  py_float : pyval -> result Z;
  (** [json.loads(x)] *)
  json_loads : pyval -> result pyval;
  (** [str(x)] on values other than strings and integers *)
  py_repr : pyval -> string;
  (** [openml.utils._list_all(output_format, listing_call, **filters)] *)
  list_all : string -> listing_call -> filters -> M listing;
  (** the table the setup endpoint sends for [list_setups(setup=...)] *)
  setups_table : trace -> list pyval -> result DataFrame
}.

(** [openml._api_calls._perform_api_call(api_call, 'get')] *)
Definition _perform_api_call (W : Collaborators) (api_call : string) : M string :=
  fun t => (http_get W t api_call, (t ++ [HttpGet api_call])%list).

(** [openml.setups.list_setups(setup=setup, output_format='dataframe')] *)
Definition list_setups (W : Collaborators) (setup : list pyval) : M DataFrame :=
  fun t => (setups_table W t setup, (t ++ [ListSetups setup])%list).

(** [str(x)] *)
Definition py_str (W : Collaborators) (v : pyval) : string :=
  match v with
  | PStr s => s
  | PInt z => str_of_Z z
  | PNone => "None"
  | PBool true => "True"
  | PBool false => "False"
  | _ => py_repr W v
  end.

(** ** Frame operations used by the setup join *)

Fixpoint col_index (c : key) (cols : list key) : option nat :=
  match cols with
  | [] => None
  | c' :: rest =>
      if key_eqb c c' then Some 0%nat else option_map S (col_index c rest)
  end.

(** The cell of a row under a label, NaN when the frame has no such column. *)
Definition row_get (cols : list key) (row : list pyval) (c : key) : pyval :=
  match col_index c cols with
  | Some j => nth j row NaN
  | None => NaN
  end.

(** [df[c]] *)
Definition column (df : DataFrame) (c : key) : result (list pyval) :=
  match col_index c (columns df) with
  | Some j => Ok (map (fun row => nth j row NaN) (data df))
  | None => Raise (KeyError c)
  end.

(** [series.unique()]: the distinct values in order of first appearance. *)
Fixpoint unique_from (seen l : list pyval) : list pyval :=
  match l with
  | [] => []
  | x :: rest =>
      if existsb (pyval_eqb x) seen then unique_from seen rest
      else x :: unique_from (x :: seen) rest
  end.

Definition unique (l : list pyval) : list pyval := unique_from [] l.

(** [count] consecutive pieces of [size] elements. *)
Fixpoint pieces {A} (size count : nat) (l : list A) : list (list A) :=
  match count with
  | O => []
  | S n => firstn size l :: pieces size n (skipn size l)
  end.

(** [np.split(ary, sections)] with an integer number of sections: the array
    must divide into equal parts. *)
Definition np_split {A} (ary : list A) (sections : Z) : result (list (list A)) :=
  let N := Z.of_nat (List.length ary) in
  if sections =? 0 then Raise (OtherError "ZeroDivisionError")
  else if negb (N mod sections =? 0) then
    Raise (ValueError "array split does not result in an equal division")
  else if sections <=? 0 then
    Raise (ValueError "number sections must be larger than 0.")
  else Ok (pieces (Z.to_nat (N / sections)) (Z.to_nat sections) ary).

(** The cells of a row whose column label is not [c]. *)
Definition cells_without (c : key) (cols : list key) (row : list pyval)
  : list pyval :=
  map snd (filter (fun p => negb (key_eqb c (fst p))) (combine cols row)).

Definition labels_without (c : key) (cols : list key) : list key :=
  filter (fun c' => negb (key_eqb c c')) cols.

(** [repr] of a label *)
Definition label_repr (c : key) : string :=
  match c with
  | KStr s => "'" ++ s ++ "'"
  | KInt z => str_of_Z z
  end.

(** The key error of [drop] for a label the axis does not have; its argument
    is a message, not the label. *)
Definition not_found_in_axis (c : key) : exn :=
  KeyError (KStr ("[" ++ label_repr c ++ "] not found in axis")).

(** [df.drop(c, axis=1)] *)
Definition drop_column (c : key) (df : DataFrame) : result DataFrame :=
  if existsb (key_eqb c) (columns df) then
    Ok (mkFrame (labels_without c (columns df))
                (map (cells_without c (columns df)) (data df)))
  else Raise (not_found_in_axis c).

(** [pd.concat([a, b], ignore_index=True)]: the rows of [a] then those of
    [b], over the union of the columns, missing cells being NaN. *)
Definition concat (a b : DataFrame) : DataFrame :=
  let cols :=
    (columns a ++
     filter (fun c => negb (existsb (key_eqb c) (columns a))) (columns b))%list in
  mkFrame cols
    (map (fun row => map (row_get (columns a) row) cols) (data a) ++
     map (fun row => map (row_get (columns b) row) cols) (data b))%list.

Fixpoint set_nth {A} (j : nat) (x : A) (l : list A) : list A :=
  match j, l with
  | _, [] => []
  | O, _ :: rest => x :: rest
  | S j', y :: rest => y :: set_nth j' x rest
  end.

(** [df[c] = values], one value per row *)
Definition set_column (c : key) (values : list pyval) (df : DataFrame)
  : DataFrame :=
  match col_index c (columns df) with
  | Some j =>
      mkFrame (columns df)
              (map (fun p => set_nth j (snd p) (fst p)) (combine (data df) values))
  | None =>
      mkFrame (columns df ++ [c])%list
              (map (fun p => fst p ++ [snd p])%list (combine (data df) values))
  end.

Definition label_str (c : key) : string :=
  match c with
  | KStr s => s
  | KInt z => str_of_Z z
  end.

(** A non-key label that both frames carry takes the suffix. *)
Definition suffixed (on : key) (others : list key) (suffix : string) (c : key)
  : key :=
  if negb (key_eqb on c) && existsb (key_eqb c) others
  then KStr (label_str c ++ suffix)
  else c.

(** The rows a left row contributes to a left join: one per matching right
    row, in the right frame's order, or a single row padded with NaN. *)
Definition joined_rows (on : key) (right : DataFrame) (j : nat) (k : pyval)
    (lrow : list pyval) : list (list pyval) :=
  match filter (fun rrow => pyval_eqb k (nth j rrow NaN)) (data right) with
  | [] =>
      [(lrow ++ map (fun _ => NaN) (labels_without on (columns right)))%list]
  | matches =>
      map (fun rrow => (lrow ++ cells_without on (columns right) rrow)%list)
          matches
  end.

(** [pd.merge(left, right, on=on, how='left')] *)
Definition merge_left (left right : DataFrame) (on : key) : result DataFrame :=
  match col_index on (columns left), col_index on (columns right) with
  | Some i, Some j =>
      Ok (mkFrame
            (map (suffixed on (columns right) "_x") (columns left) ++
             map (suffixed on (columns left) "_y")
                 (labels_without on (columns right)))%list
            (flat_map (fun lrow => joined_rows on right j (nth i lrow NaN) lrow)
                      (data left)))
  | _, _ => Raise (KeyError on)
  end.

(** The dictionary of one row: [{column: cell}], a repeated label keeping its
    last cell. *)
Definition row_dict (cols : list key) (row : list pyval) : dict :=
  fold_left (fun d p => dict_set (fst p) (snd p) d) (combine cols row) [].

(** [df.to_dict(orient='index')] *)
Definition to_dict_index (df : DataFrame) : dict :=
  map (fun p => (KInt (Z.of_nat (fst p)), PDict (row_dict (columns df) (snd p))))
      (combine (seq 0 (List.length (data df))) (data df)).

(** ** The module's functions *)

Section Functions.

Variable W : Collaborators.

(** *** The query path, [_list_evaluations] lines 142-157 *)

Definition comma_ints (l : list Z) : string := join "," (map str_of_Z l).

Definition add_ids (name : string) (ids : option (list Z)) (api_call : string)
  : string :=
  match ids with
  | Some l => api_call ++ "/" ++ name ++ "/" ++ comma_ints l
  | None => api_call
  end.

Definition api_call_of (function : string)
    (id task setup flow uploader : option (list Z))
    (sort_order : option string) (kwargs : list (string * pyval)) : string :=
  let api_call := "evaluation/list/function/" ++ function in
  let api_call :=
    fold_left (fun acc kv => acc ++ "/" ++ fst kv ++ "/" ++ py_str W (snd kv))
              kwargs api_call in
  let api_call := add_ids "run" id api_call in
  let api_call := add_ids "task" task api_call in
  let api_call := add_ids "setup" setup api_call in
  let api_call := add_ids "flow" flow api_call in
  let api_call := add_ids "uploader" uploader api_call in
  match sort_order with
  | Some o => api_call ++ "/sort_order/" ++ o
  | None => api_call
  end.

(** *** Decoding one evaluation element, lines 176-211 *)

Local Open Scope res_scope.

Definition int_field (eval_ : pyval) (tag : string) : result Z :=
  x <- getitem eval_ (KStr tag) ;; py_int W x.

(** [value], lines 180-181 *)
Definition read_value (eval_ : pyval) : result pyval :=
  present <- contains "oml:value" eval_ ;;
  if present then
    x <- getitem eval_ (KStr "oml:value") ;;
    f <- py_float W x ;;
    Ok (PFloat f)
  else Ok PNone.

(** [values], lines 182-183 *)
Definition read_values (eval_ : pyval) : result pyval :=
  present <- contains "oml:values" eval_ ;;
  if present then
    x <- getitem eval_ (KStr "oml:values") ;;
    json_loads W x
  else Ok PNone.

(** [array_data], lines 184-185 *)
Definition read_array_data (eval_ : pyval) : result pyval :=
  present <- contains "oml:array_data" eval_ ;;
  if present then getitem eval_ (KStr "oml:array_data") else Ok PNone.

(** The nine leading fields, which both branches of lines 187-211 evaluate
    by the same expressions in the same order. *)
Record header : Type := mkHeader {
  h_run_id : Z;
  h_task_id : Z;
  h_setup_id : Z;
  h_flow_id : Z;
  h_flow_name : pyval;
  h_data_id : pyval;
  h_data_name : pyval;
  h_function : pyval;
  h_upload_time : pyval
}.

Definition read_header (eval_ : pyval) : result header :=
  run_id <- int_field eval_ "oml:run_id" ;;
  task_id <- int_field eval_ "oml:task_id" ;;
  setup_id <- int_field eval_ "oml:setup_id" ;;
  flow_id <- int_field eval_ "oml:flow_id" ;;
  flow_name <- getitem eval_ (KStr "oml:flow_name") ;;
  data_id <- getitem eval_ (KStr "oml:data_id") ;;
  data_name <- getitem eval_ (KStr "oml:data_name") ;;
  function <- getitem eval_ (KStr "oml:function") ;;
  upload_time <- getitem eval_ (KStr "oml:upload_time") ;;
  Ok (mkHeader run_id task_id setup_id flow_id flow_name data_id data_name
               function upload_time).

(** [OpenMLEvaluation(...)], the twelve constructor arguments in order *)
Definition evaluation_object (h : header) (value values array_data : pyval)
  : pyval :=
  PEvaluation [PInt (h_run_id h); PInt (h_task_id h); PInt (h_setup_id h);
               PInt (h_flow_id h); h_flow_name h; h_data_id h; h_data_name h;
               h_function h; h_upload_time h; value; values; array_data].

(** The dictionary literal of lines 200-211 *)
Definition evaluation_dict (h : header) (value values array_data : pyval)
  : pyval :=
  PDict [(KStr "run_id", PInt (h_run_id h));
         (KStr "task_id", PInt (h_task_id h));
         (KStr "setup_id", PInt (h_setup_id h));
         (KStr "flow_id", PInt (h_flow_id h));
         (KStr "flow_name", h_flow_name h);
         (KStr "data_id", h_data_id h);
         (KStr "data_name", h_data_name h);
         (KStr "function", h_function h);
         (KStr "upload_time", h_upload_time h);
         (KStr "value", value);
         (KStr "values", values);
         (KStr "array_data", array_data)].

(** The record built from one element: its run identifier and the object or
    dictionary stored under it. *)
Definition decode_evaluation (output_format : string) (eval_ : pyval)
  : result (Z * pyval) :=
  run_id <- int_field eval_ "oml:run_id" ;;
  value <- read_value eval_ ;;
  values <- read_values eval_ ;;
  array_data <- read_array_data eval_ ;;
  h <- read_header eval_ ;;
  if String.eqb output_format "object"
  then Ok (run_id, evaluation_object h value values array_data)
  else Ok (run_id, evaluation_dict h value values array_data).

(** The loop of lines 174-211: [evals[run_id] = record] for each element. *)
Fixpoint accumulate (output_format : string) (elements : list pyval)
    (evals : dict) : result dict :=
  match elements with
  | [] => Ok evals
  | eval_ :: rest =>
      r <- decode_evaluation output_format eval_ ;;
      accumulate output_format rest (dict_set (KInt (fst r)) (snd r) evals)
  end.

(** [row.keys()] *)
Definition keys_of (row : pyval) : result (list key) :=
  match row with
  | PDict d => Ok (dict_keys d)
  | _ => Raise AttributeError
  end.

(** The cell of a record under a column label; a missing label gives NaN. *)
Definition cell_of (row : pyval) (c : key) : pyval :=
  match row with
  | PDict d => match dict_get c d with Some v => v | None => NaN end
  | _ => NaN
  end.

(** *** The column types of a new frame

    [from_records] collects each column as an array of objects and passes it
    through [lib.maybe_convert_objects]: a column of numbers, with or without
    None, becomes a float column in which None is NaN; any other column
    keeps its objects. *)

Record seen : Type := mkSeen {
  null_ : bool;
  bool_ : bool;
  int_ : bool;
  uint_ : bool;
  sint_ : bool;
  float_ : bool;
  object_ : bool
}.

Definition nothing_seen : seen :=
  mkSeen false false false false false false false.

Definition INT64_MIN : Z := - 2 ^ 63.
Definition INT64_MAX : Z := 2 ^ 63 - 1.
Definition UINT64_MAX : Z := 2 ^ 64 - 1.

(** One step of the scan; an object ends it. *)
Definition see (s : seen) (val : pyval) : seen :=
  let (null, bool, int, uint, sint, float, object) := s in
  if object then s
  else
    match val with
    | PNone => mkSeen true bool int uint sint float false
    | PBool _ => mkSeen null true int uint sint float false
    | PFloat _ => mkSeen null bool int uint sint true false
    | PInt z =>
        if null then mkSeen true bool true uint sint float false
        else
          let u := uint || ((INT64_MAX <? z) && (z <=? UINT64_MAX)) in
          let n := sint || ((INT64_MIN <=? z) && (z <? 0)) in
          mkSeen false bool true u n float
                 ((u && n) || (UINT64_MAX <? z) || (z <? INT64_MIN))
    | _ => mkSeen null bool int uint sint float true
    end.

Definition scan (column_ : list pyval) : seen :=
  fold_left see column_ nothing_seen.

(** The scan ends in the array of floats. *)
Definition gives_floats (s : seen) : bool :=
  negb (object_ s) && negb (bool_ s) &&
  (if null_ s then float_ s || int_ s else float_ s).

(** A cell of the array of floats: NaN for None, [float] of an integer. *)
Definition to_float (val : pyval) : pyval :=
  match val with
  | PNone => NaN
  | PInt z =>
      match py_float W (PInt z) with
      | Ok f => PFloat f
      | Raise _ => val
      end
  | _ => val
  end.

(** [lib.maybe_convert_objects(column)] *)
Definition maybe_convert_objects (column_ : list pyval) : list pyval :=
  if gives_floats (scan column_) then map to_float column_ else column_.

(** [pd.DataFrame.from_records(rows, columns=cols)] on dictionaries: one
    converted array per column, read back row by row. *)
Definition from_records (rows : list pyval) (cols : list key) : DataFrame :=
  let arrays :=
    map (fun c => maybe_convert_objects (map (fun r => cell_of r c) rows))
        cols in
  mkFrame cols
    (map (fun i => map (fun a => nth i a NaN) arrays)
         (seq 0 (List.length rows))).

Definition missing_tag_message (tag : string) : string :=
  ("Error in return XML, does not contain " ++ dquote ++ tag ++ dquote)%string.

(** What [__list_evaluations] does with the parsed document, lines 167-216 *)
Definition evaluations_of_document (evals_dict : dict) (output_format : string)
  : result listing :=
  if negb (dict_mem (KStr "oml:evaluations") evals_dict) then
    Raise (ValueError (missing_tag_message "oml:evaluations" ++ ": "
                       ++ py_str W (PDict evals_dict))%string)
  else
    root <- getitem (PDict evals_dict) (KStr "oml:evaluations") ;;
    elements <- getitem root (KStr "oml:evaluation") ;;
    match elements with
    | PList l =>
        evals <- accumulate output_format l [] ;;
        if String.eqb output_format "dataframe" then
          let rows := dict_values evals in
          first <- seq_index rows 0 ;;
          cols <- keys_of first ;;
          Ok (Frame (from_records rows cols))
        else Ok (Mapping evals)
    | _ => Raise AssertionError
    end.

Local Close Scope res_scope.
Local Open Scope io_scope.

Definition __list_evaluations (api_call output_format : string) : M listing :=
  xml_string <- _perform_api_call W api_call ;;
  evals_dict <- lift (xml_parse W xml_string (PTuple [PStr "oml:evaluation"])) ;;
  lift (evaluations_of_document evals_dict output_format).

Definition _list_evaluations : listing_call :=
  fun function id task setup flow uploader sort_order output_format kwargs =>
    __list_evaluations
      (api_call_of function id task setup flow uploader sort_order kwargs)
      output_format.

Definition invalid_format_message : string :=
  "Invalid output format selected. Only 'object', 'dataframe', or 'dict' applicable.".

(** [str(per_fold).lower()] *)
Definition lower_bool (b : bool) : string := if b then "true" else "false".

Record arguments : Type := mkArguments {
  a_function : string;
  a_offset : option Z;
  a_size : option Z;
  a_id : option (list Z);
  a_task : option (list Z);
  a_setup : option (list Z);
  a_flow : option (list Z);
  a_uploader : option (list Z);
  a_tag : option string;
  a_per_fold : option bool;
  a_sort_order : option string
}.

Definition list_evaluations (a : arguments) (output_format : string)
  : M listing :=
  if negb (existsb (String.eqb output_format) ["dataframe"; "dict"; "object"])
  then throw (ValueError invalid_format_message)
  else
    let per_fold_str := option_map lower_bool (a_per_fold a) in
    list_all W output_format _list_evaluations
      (mkFilters (a_function a) (a_offset a) (a_size a) (a_id a) (a_task a)
                 (a_setup a) (a_flow a) (a_uploader a) (a_tag a)
                 (a_sort_order a) per_fold_str).

(** *** [list_evaluation_measures] *)

Definition measures_of_document (qualities : dict) : result pyval :=
  (if negb (dict_mem (KStr "oml:evaluation_measures") qualities) then
    Raise (ValueError (missing_tag_message "oml:evaluation_measures"))
  else
    root <- getitem (PDict qualities) (KStr "oml:evaluation_measures") ;;
    measures <- getitem root (KStr "oml:measures") ;;
    first <- getitem measures (KInt 0) ;;
    measure <- getitem first (KStr "oml:measure") ;;
    match measure with
    | PList _ => Ok measure
    | _ => Raise (TypeError ("Error in return XML, does not contain "
                             ++ dquote ++ "oml:measure" ++ dquote
                             ++ " as a list")%string)
    end)%res.

Definition list_evaluation_measures : M pyval :=
  xml_string <- _perform_api_call W "evaluationmeasure/list" ;;
  qualities <- lift (xml_parse W xml_string (PStr "oml:measures")) ;;
  lift (measures_of_document qualities).

(** *** [list_evaluations_setups] *)

Definition parameter_pair (param : pyval) : result pyval :=
  (name <- getitem param (KStr "parameter_name") ;;
   value <- getitem param (KStr "value") ;;
   Ok (PTuple [name; value]))%res.

Fixpoint map_result {A B} (f : A -> result B) (l : list A) : result (list B) :=
  match l with
  | [] => Ok []
  | x :: rest =>
      (y <- f x ;; ys <- map_result f rest ;; Ok (y :: ys))%res
  end.

(** Lines 317-321: the list of (name, value) tuples of one setup, the empty
    list when the setup has no parameter mapping. *)
Definition flatten_parameters (parameter_dict : pyval) : result pyval :=
  if negb (is_none parameter_dict) then
    match parameter_dict with
    | PDict d =>
        (l <- map_result parameter_pair (dict_values d) ;; Ok (PList l))%res
    | _ => Raise AttributeError
    end
  else Ok (PList []).

(** The loop of lines 309-313, one [list_setups] call per chunk. *)
Fixpoint fetch_setups (setup_chunks : list (list pyval)) (setups : DataFrame)
  : M DataFrame :=
  match setup_chunks with
  | [] => ret setups
  | setup :: rest =>
      result <- list_setups W setup ;;
      result <- lift (drop_column (KStr "flow_id") result) ;;
      fetch_setups rest (concat setups result)
  end.

Definition N_setups : Z := 100.

(** Lines 305-322: the setup table of the evaluations' setups, fetched chunk
    by chunk, with its parameters column flattened. *)
Definition collect_setups (evals : DataFrame) : M DataFrame :=
  ids <- lift (column evals (KStr "setup_id")) ;;
  setup_chunks <-
    lift (np_split (unique ids)
                   ((Z.of_nat (List.length (unique ids)) - 1) / N_setups + 1)) ;;
  setups <- fetch_setups setup_chunks empty_frame ;;
  column_ <- lift (column setups (KStr "parameters")) ;;
  parameters <- lift (map_result flatten_parameters column_) ;;
  ret (set_column (KStr "parameters") parameters setups).

(** Lines 305-324, the body of [if len(evals) != 0]. *)
Definition join_setups (evals : DataFrame) : M DataFrame :=
  setups <- collect_setups evals ;;
  lift (merge_left evals setups (KStr "setup_id")).

(** [evals['setup_id']] on a mapping, which is not what a 'dataframe' listing
    returns: the subscript or the following attribute access fails. *)
Definition mapping_setup_ids (d : dict) : exn :=
  match dict_get (KStr "setup_id") d with
  | Some _ => AttributeError
  | None => KeyError (KStr "setup_id")
  end.

(** Lines 303-324: [df], the empty frame unless there are evaluations. *)
Definition joined_frame (evals : listing) : M DataFrame :=
  if negb (Nat.eqb (listing_len evals) 0)
  then match evals with
       | Frame evals_df => join_setups evals_df
       | Mapping d => throw (mapping_setup_ids d)
       end
  else ret empty_frame.

Definition list_evaluations_setups (a : arguments) (output_format : string)
  : M listing :=
  evals <- list_evaluations a "dataframe" ;;
  df <- joined_frame evals ;;
  if String.eqb output_format "dataframe"
  then ret (Frame df)
  else ret (Mapping (to_dict_index df)).

End Functions.

(** ** A small world for concrete runs

    Stand-ins for the collaborators: a server that always sends the same
    parsed document, decimal [int], a table of float and JSON literals, a
    one-page [_list_all], and a setup endpoint backed by a list of setups. *)
Module Fixture.

Definition fixture_int (v : pyval) : result Z :=
  match v with
  | PInt z => Ok z
  | PStr s =>
      match NilZero.int_of_string s with
      | Some d => Ok (Z.of_int d)
      | None => Raise (ValueError "invalid literal for int()")
      end
  | _ => Raise (TypeError "int() argument must be a string or a number")
  end.

Definition half : Z := 0x3FE0000000000000.
Definition one : Z := 0x3FF0000000000000.

Definition fixture_float (v : pyval) : result Z :=
  match v with
  | PStr s =>
      if String.eqb s "0.5" then Ok half
      else if String.eqb s "1.0" then Ok one
      else Raise (ValueError "could not convert string to float")
  | _ => Raise (TypeError "float() argument must be a string or a number")
  end.

Definition fixture_json (v : pyval) : result pyval :=
  match v with
  | PStr s =>
      if String.eqb s "[0.5, 1.0]" then Ok (PList [PFloat half; PFloat one])
      else if String.eqb s "null" then Ok PNone
      else Raise (ValueError "Expecting value")
  | _ => Raise (TypeError "the JSON object must be str")
  end.

Definition key_repr (k : key) : string :=
  match k with
  | KStr s => "'" ++ s ++ "'"
  | KInt z => str_of_Z z
  end.

Fixpoint fixture_repr (v : pyval) : string :=
  match v with
  | PNone => "None"
  | PBool true => "True"
  | PBool false => "False"
  | PInt z => str_of_Z z
  | PFloat bits => "float.fromhex(" ++ str_of_Z bits ++ ")"
  | PStr s => "'" ++ s ++ "'"
  | PList l => "[" ++ join ", " (map fixture_repr l) ++ "]"
  | PTuple l => "(" ++ join ", " (map fixture_repr l) ++ ")"
  | PDict d =>
      "{" ++ join ", " (map (fun kv => key_repr (fst kv) ++ ": "
                                        ++ fixture_repr (snd kv)) d) ++ "}"
  | PEvaluation l => "OpenMLEvaluation(" ++ join ", " (map fixture_repr l) ++ ")"
  end.

Definition optional_kwarg (name : string) (v : option pyval)
  : list (string * pyval) :=
  match v with
  | Some x => [(name, x)]
  | None => []
  end.

Definition no_result : exn := OtherError "OpenMLServerNoResult".

(** The empty result of a listing in the given format. *)
Definition nothing (output_format : string) : listing :=
  if String.eqb output_format "dataframe" then Frame empty_frame else Mapping [].

(** The page size of one request: the requested size, at most 10000. *)
Definition page_limit (size : option Z) : Z :=
  match size with
  | Some n => Z.min n 10000
  | None => 10000
  end.

Definition page_offset (offset : option Z) : Z :=
  match offset with
  | Some n => n
  | None => 0
  end.

(** One page: the listing call is made once, with the page's limit and
    offset and the filters that are set; a server that has no result gives
    the empty listing. *)
Definition one_page : string -> listing_call -> filters -> M listing :=
  fun output_format call f t =>
    match
      call (f_function f) (f_id f) (f_task f) (f_setup f) (f_flow f)
           (f_uploader f) (f_sort_order f) output_format
           ([("limit", PInt (page_limit (f_size f)));
             ("offset", PInt (page_offset (f_offset f)))] ++
            optional_kwarg "tag" (option_map PStr (f_tag f)) ++
            optional_kwarg "per_fold" (option_map PStr (f_per_fold f)))%list t
    with
    | (Raise (OtherError name), t') =>
        if String.eqb name "OpenMLServerNoResult"
        then (Ok (nothing output_format), t')
        else (Raise (OtherError name), t')
    | r => r
    end.

(** A stored setup: identifier, flow, parameter mapping or None. *)
Definition stored_setup : Type := (Z * Z * pyval)%type.

Definition setup_row (s : stored_setup) : list pyval :=
  [PInt (fst (fst s)); PInt (snd (fst s)); snd s].

Definition setup_frame (store : list stored_setup) (setup : list pyval)
  : DataFrame :=
  mkFrame [KStr "setup_id"; KStr "flow_id"; KStr "parameters"]
          (map setup_row
               (filter (fun s => existsb (pyval_eqb (PInt (fst (fst s)))) setup)
                       store)).

Definition world (response : result string) (document : dict)
    (store : list stored_setup) : Collaborators :=
  mkCollaborators
    (fun _ _ => response)
    (fun _ _ => Ok document)
    fixture_int fixture_float fixture_json fixture_repr
    one_page
    (fun _ setup => Ok (setup_frame store setup)).

Definition element (run_id setup_id : Z) (shape : dict) : pyval :=
  PDict ([(KStr "oml:run_id", PStr (str_of_Z run_id));
          (KStr "oml:task_id", PStr "31");
          (KStr "oml:setup_id", PStr (str_of_Z setup_id));
          (KStr "oml:flow_id", PStr "7");
          (KStr "oml:flow_name", PStr "weka.J48");
          (KStr "oml:data_id", PStr "31");
          (KStr "oml:data_name", PStr "credit-g");
          (KStr "oml:function", PStr "precision");
          (KStr "oml:upload_time", PStr "2019-07-01 12:00:00")] ++ shape)%list.

Definition document_of (elements : list pyval) : dict :=
  [(KStr "oml:evaluations", PDict [(KStr "oml:evaluation", PList elements)])].

Definition parameter (name value : string) : pyval :=
  PDict [(KStr "parameter_name", PStr name); (KStr "value", PStr value)].

Definition store : list stored_setup :=
  [(5, 7, PDict [(KInt 101, parameter "C" "0.25"); (KInt 102, parameter "M" "2")]);
   (6, 7, PNone)].

Definition precision : arguments :=
  mkArguments "precision" None (Some 10) None (Some [31]) None None None None
              None None.

Definition precision_of_task : arguments :=
  mkArguments "precision" None None None (Some [31]) None None None None
              None None.

End Fixture.

(** ** Statements and sample worlds

    The properties the theorems below are about, worded after the
    specification, and the worlds their concrete runs use. *)

(** The path as the specification words it: the fixed prefix and the metric,
    followed by one [/name/value] segment per filter, the keyword filters
    first and then run, task, setup, flow, uploader and sort_order. *)
Definition segment (name value : string) : string :=
  ("/" ++ name ++ "/" ++ value)%string.

Definition concat_all (parts : list string) : string :=
  fold_right append EmptyString parts.

Definition id_segment (name : string) (ids : option (list Z)) : list string :=
  match ids with
  | Some l => [segment name (comma_ints l)]
  | None => []
  end.

Definition path_shape (W : Collaborators) (function : string)
    (id task setup flow uploader : option (list Z))
    (sort_order : option string) (kwargs : list (string * pyval)) : string :=
  ("evaluation/list/function/" ++ function ++
   concat_all
     (map (fun kv => segment (fst kv) (py_str W (snd kv))) kwargs ++
      id_segment "run" id ++ id_segment "task" task ++
      id_segment "setup" setup ++ id_segment "flow" flow ++
      id_segment "uploader" uploader ++
      match sort_order with
      | Some o => [segment "sort_order" o]
      | None => []
      end)%list)%string.

(** The claim that a call rejects its output format: it raises a usage error
    and leaves the trace of network calls as it found it. *)
Definition rejects_before_network {A} (c : M A) (t : trace) : Prop :=
  exists msg, c t = (Raise (ValueError msg), t).

Definition recognized (output_format : string) : bool :=
  existsb (String.eqb output_format) ["dataframe"; "dict"; "object"].

(** A world with two evaluations, of setups 5 and 9, and stored setups 5
    and 6. *)
Definition two_runs : Collaborators :=
  Fixture.world (Ok "<xml/>")
    (Fixture.document_of
       [Fixture.element 1 5 [(KStr "oml:value", PStr "0.5");
                             (KStr "oml:array_data", PStr "[0.4,0.6]")];
        Fixture.element 2 9 []])
    Fixture.store.


(** A world whose server has no result for the query. *)
Definition no_runs : Collaborators :=
  Fixture.world (Raise Fixture.no_result) [] Fixture.store.

(** The claim that an error message embeds the parsed document. *)
Definition embeds_document {A} (W : Collaborators) (document : dict)
    (r : result A) : Prop :=
  exists msg,
    r = Raise (ValueError msg) /\
    is_substring (py_str W (PDict document)) msg = true.

Definition error_document : dict :=
  [(KStr "oml:error", PDict [(KStr "oml:code", PStr "500")])].

(** A world whose server sends a document without either collection tag. *)
Definition broken_document : Collaborators :=
  Fixture.world (Ok "<xml/>") error_document Fixture.store.

(** The mapping after storing the decoded records one by one. *)
Definition store_all (records : list (Z * pyval)) (evals : dict) : dict :=
  fold_left (fun d r => dict_set (KInt (fst r)) (snd r) d) records evals.

(** The run identifiers in order of first appearance, as the specification
    words the order of the mapping. *)
Fixpoint first_seen (seen ids : list Z) : list Z :=
  match ids with
  | [] => []
  | x :: rest =>
      if existsb (Z.eqb x) seen then first_seen seen rest
      else x :: first_seen (seen ++ [x]) rest
  end.

(** The last record of the response that carries run identifier [k]. *)
Fixpoint last_record (k : Z) (records : list (Z * pyval)) : option pyval :=
  match records with
  | [] => None
  | r :: rest =>
      match last_record k rest with
      | Some v => Some v
      | None => if fst r =? k then Some (snd r) else None
      end
  end.

(** A response in which runs 1 and 2 appear and run 1 appears again. *)
Definition repeated_run : list pyval :=
  [Fixture.element 1 5 [(KStr "oml:value", PStr "0.5")];
   Fixture.element 2 6 [];
   Fixture.element 1 6 [(KStr "oml:value", PStr "1.0")]].

(** A field of a record, by name in a dictionary and by constructor position
    in an [OpenMLEvaluation]. *)
Definition record_field (name : string) (position : nat) (record : pyval)
  : option pyval :=
  match record with
  | PDict d => dict_get (KStr name) d
  | PEvaluation args => nth_error args position
  | _ => None
  end.

Definition record_value := record_field "value" 9.
Definition record_values := record_field "values" 10.
Definition record_array_data := record_field "array_data" 11.

Definition populated (field : option pyval) : bool :=
  match field with
  | Some v => negb (is_null v)
  | None => false
  end.

(** How many of value, values and array_data a record has non-null. *)
Definition shapes (record : pyval) : nat :=
  ((if populated (record_value record) then 1 else 0) +
   (if populated (record_values record) then 1 else 0) +
   (if populated (record_array_data record) then 1 else 0))%nat.

(** The records of a listing: the values of a mapping, the rows of a frame
    under their column labels. *)
Definition records_of (l : listing) : list pyval :=
  match l with
  | Mapping d => dict_values d
  | Frame df => map (fun row => PDict (combine (columns df) row)) (data df)
  end.

(** The claim that the three shapes exclude each other in every record a
    listing returns. *)
Definition shapes_exclusive (W : Collaborators) (api_call output_format : string)
    (t : trace) : Prop :=
  forall l t',
    __list_evaluations W api_call output_format t = (Ok l, t') ->
    Forall (fun record => (shapes record <= 1)%nat) (records_of l).

Definition evaluation_columns : list key :=
  [KStr "run_id"; KStr "task_id"; KStr "setup_id"; KStr "flow_id";
   KStr "flow_name"; KStr "data_id"; KStr "data_name"; KStr "function";
   KStr "upload_time"; KStr "value"; KStr "values"; KStr "array_data"].

Definition is_evaluation_dict (record : pyval) : Prop :=
  exists h value values array_data,
    record = evaluation_dict h value values array_data.

(** A world whose response has [n] evaluations, run [i] using setup [i]. *)
Definition distinct_setups (n : nat) : Collaborators :=
  Fixture.world (Ok "<xml/>")
    (Fixture.document_of
       (map (fun i => Fixture.element (Z.of_nat i) (Z.of_nat i) []) (seq 1 n)))
    Fixture.store.

Definition set_pair (d : dict) (p : key * pyval) : dict :=
  dict_set (fst p) (snd p) d.








(** A record follows the tags of the element [d] it was built from: each of
    value, values and array_data is null when its tag is absent and holds
    what its own tag decodes to otherwise. *)
Definition follows_tags (W : Collaborators) (d : dict) (record : pyval) : Prop :=
  (dict_get (KStr "oml:value") d = None -> record_value record = Some PNone) /\
  (forall x, dict_get (KStr "oml:value") d = Some x ->
     exists f, py_float W x = Ok f /\ record_value record = Some (PFloat f)) /\
  (dict_get (KStr "oml:values") d = None -> record_values record = Some PNone) /\
  (forall x, dict_get (KStr "oml:values") d = Some x ->
     exists v, json_loads W x = Ok v /\ record_values record = Some v) /\
  (dict_get (KStr "oml:array_data") d = None ->
     record_array_data record = Some PNone) /\
  (forall x, dict_get (KStr "oml:array_data") d = Some x ->
     record_array_data record = Some x).

(** The tags every evaluation element is read for, lines 188-196. *)
Definition required_tags : list string :=
  ["oml:run_id"; "oml:task_id"; "oml:setup_id"; "oml:flow_id";
   "oml:flow_name"; "oml:data_id"; "oml:data_name"; "oml:function";
   "oml:upload_time"].

(** The tags whose content goes through [int]. *)
Definition integer_tags : list string :=
  ["oml:run_id"; "oml:task_id"; "oml:setup_id"; "oml:flow_id"].

(** The dictionary with the fields of an [OpenMLEvaluation], under the names
    of lines 200-211. *)
Definition as_dict (record : pyval) : pyval :=
  match record with
  | PEvaluation args => PDict (combine evaluation_columns args)
  | _ => record
  end.

Definition entry_as_dict (kv : key * pyval) : key * pyval :=
  (fst kv, as_dict (snd kv)).

(** What [__list_evaluations] returns from the accumulated mapping, lines
    213-216. *)
Definition project (W : Collaborators) (output_format : string)
    (evals : dict) : result listing :=
  if String.eqb output_format "dataframe" then
    rbind (seq_index (dict_values evals) 0) (fun first =>
    rbind (keys_of first) (fun cols =>
    Ok (Frame (from_records W (dict_values evals) cols))))
  else Ok (Mapping evals).

(** The number of sections the setup join asks [np.split] for. *)
Definition sections_for (n : Z) : Z := (n - 1) / N_setups + 1.

(** The row numbers of a frame, as the keys of its mapping. *)
Definition row_numbers (df : DataFrame) : list key :=
  map (fun i => KInt (Z.of_nat i)) (seq 0 (List.length (data df))).

Definition measures_document : dict :=
  [(KStr "oml:evaluation_measures",
    PDict [(KStr "oml:measures",
            PList [PDict [(KStr "oml:measure",
                           PList [PStr "area_under_roc_curve";
                                  PStr "precision"])]])])].

(** A world whose server sends the list of two measures. *)
Definition two_measures : Collaborators :=
  Fixture.world (Ok "<xml/>") measures_document Fixture.store.

(** A world whose second element has no flow name. *)
Definition nameless_flow : Collaborators :=
  Fixture.world (Ok "<xml/>")
    (Fixture.document_of
       [Fixture.element 1 5 [];
        PDict [(KStr "oml:run_id", PStr "2"); (KStr "oml:task_id", PStr "31");
               (KStr "oml:setup_id", PStr "5"); (KStr "oml:flow_id", PStr "7")];
        PStr "ignored"])
    Fixture.store.

(** A world whose collection element is empty, which [xmltodict] gives as
    None. *)
Definition empty_collection : Collaborators :=
  Fixture.world (Ok "<xml/>") [(KStr "oml:evaluations", PNone)] Fixture.store.

(** A world with three evaluations of setup 5, stored twice. *)
Definition doubled_setup : Collaborators :=
  Fixture.world (Ok "<xml/>")
    (Fixture.document_of
       [Fixture.element 1 5 []; Fixture.element 2 5 []; Fixture.element 3 5 []])
    [(5, 7, PNone); (5, 8, PNone)].

(** A world like [two_runs] whose setup endpoint sends a table without the
    [flow_id] column. *)
Definition flowless_setups : Collaborators :=
  mkCollaborators
    (fun _ _ => Ok "<xml/>")
    (fun _ _ =>
       Ok (Fixture.document_of
             [Fixture.element 1 5 []; Fixture.element 2 9 []]))
    Fixture.fixture_int Fixture.fixture_float Fixture.fixture_json
    Fixture.fixture_repr Fixture.one_page
    (fun _ _ => Ok (mkFrame [KStr "setup_id"; KStr "parameters"]
                            [[PInt 5; PNone]])).

(** How a cell of a new frame relates to the value it was built from: it is
    that value, or NaN for None, or the float of an integer. *)
Definition coerced (W : Collaborators) (v c : pyval) : Prop :=
  c = v \/
  (v = PNone /\ c = NaN) \/
  (exists z f, v = PInt z /\ py_float W (PInt z) = Ok f /\ c = PFloat f).

(** A row of a frame follows the tags of the element [d] it was built from:
    each of value, values and array_data is null, None or NaN, when its tag
    is absent and holds what its own tag decodes to otherwise, as the column
    conversion of the frame leaves it. *)
Definition follows_tags_in_frame (W : Collaborators) (d : dict)
    (record : pyval) : Prop :=
  (dict_get (KStr "oml:value") d = None ->
     exists c, record_value record = Some c /\ is_null c = true) /\
  (forall x, dict_get (KStr "oml:value") d = Some x ->
     exists f, py_float W x = Ok f /\ record_value record = Some (PFloat f)) /\
  (dict_get (KStr "oml:values") d = None ->
     exists c, record_values record = Some c /\ is_null c = true) /\
  (forall x, dict_get (KStr "oml:values") d = Some x ->
     exists v c, json_loads W x = Ok v /\ record_values record = Some c /\
                 coerced W v c) /\
  (dict_get (KStr "oml:array_data") d = None ->
     exists c, record_array_data record = Some c /\ is_null c = true) /\
  (forall x, dict_get (KStr "oml:array_data") d = Some x ->
     exists c, record_array_data record = Some c /\ coerced W x c).



(** *** Reading a path back

    The words of the specification on the text of a segment, stated
    without the functions the query builder uses: strings joined by commas,
    and the reader that splits a text at its commas and reads each part as
    a decimal integer. *)

Fixpoint comma_joined (parts : list string) : string :=
  match parts with
  | [] => EmptyString
  | [x] => x
  | x :: rest => x ++ "," ++ comma_joined rest
  end.

(** [int(text)] on a decimal text *)
Definition read_decimal (text : string) : option Z :=
  option_map Z.of_int (NilZero.int_of_string text).

(** [text.split(",")] *)
Fixpoint split_commas (text : string) : list string :=
  match text with
  | EmptyString => [EmptyString]
  | String c rest =>
      if Ascii.eqb c "," then EmptyString :: split_commas rest
      else
        match split_commas rest with
        | part :: parts => String c part :: parts
        | [] => [String c EmptyString]
        end
  end.

Fixpoint read_all (parts : list string) : option (list Z) :=
  match parts with
  | [] => Some []
  | x :: rest =>
      match read_decimal x, read_all rest with
      | Some z, Some zs => Some (z :: zs)
      | _, _ => None
      end
  end.

(** The identifiers a segment value lists. *)
Definition read_ids (text : string) : option (list Z) :=
  match text with
  | EmptyString => Some []
  | _ => read_all (split_commas text)
  end.

(** The text of a keyword filter's value: a string as it is, an integer in
    decimal, and [str] of anything else. *)
Definition keyword_text (W : Collaborators) (value : pyval) : string :=
  match value with
  | PStr s => s
  | PInt z => NilZero.string_of_int (Z.to_int z)
  | PNone => "None"
  | PBool true => "True"
  | PBool false => "False"
  | _ => py_repr W value
  end.

Definition ids_segment (name : string) (ids : option (list Z)) : list string :=
  match ids with
  | Some l =>
      [("/" ++ name ++ "/"
        ++ comma_joined (map (fun z => NilZero.string_of_int (Z.to_int z)) l))
         %string]
  | None => []
  end.

(** The path of a query: the fixed prefix and the metric, then one
    [/name/value] segment per filter, the keyword filters first and then
    run, task, setup, flow, uploader and sort_order. *)
Definition query_path (W : Collaborators) (function : string)
    (id task setup flow uploader : option (list Z))
    (sort_order : option string) (kwargs : list (string * pyval)) : string :=
  ("evaluation/list/function/" ++ function ++
   concat_all
     (map (fun kv => ("/" ++ fst kv ++ "/" ++ keyword_text W (snd kv))%string)
          kwargs ++
      ids_segment "run" id ++ ids_segment "task" task ++
      ids_segment "setup" setup ++ ids_segment "flow" flow ++
      ids_segment "uploader" uploader ++
      match sort_order with
      | Some o => [("/sort_order/" ++ o)%string]
      | None => []
      end)%list)%string.

Definition has_comma (text : string) : bool :=
  existsb (Ascii.eqb ",") (list_ascii_of_string text).

(** ** Basic facts *)

Lemma append_assoc (a b c : string) : ((a ++ b) ++ c = a ++ (b ++ c))%string.
Proof.
  induction a as [|ch a IH]; simpl; [reflexivity | now rewrite IH].
Qed.

Lemma append_nil_r (a : string) : (a ++ EmptyString)%string = a.
Proof.
  induction a as [|ch a IH]; simpl; [reflexivity | now rewrite IH].
Qed.

Lemma key_eqb_eq (a b : key) : key_eqb a b = true <-> a = b.
Proof.
  destruct a as [s|x], b as [t|y]; simpl; split; intro H;
    try discriminate; try congruence.
  - apply String.eqb_eq in H. now subst.
  - inversion H. apply String.eqb_refl.
  - apply Z.eqb_eq in H. now subst.
  - inversion H. apply Z.eqb_refl.
Qed.

Lemma key_eqb_refl (a : key) : key_eqb a a = true.
Proof. now apply key_eqb_eq. Qed.

Lemma key_eqb_neq (a b : key) : key_eqb a b = false <-> a <> b.
Proof.
  split.
  - intros H E. apply key_eqb_eq in E. congruence.
  - intro H. destruct (key_eqb a b) eqn:E; [|reflexivity].
    apply key_eqb_eq in E. contradiction.
Qed.

Lemma key_eqb_sym (a b : key) : key_eqb a b = key_eqb b a.
Proof.
  destruct (key_eqb a b) eqn:E.
  - apply key_eqb_eq in E. subst. symmetry. apply key_eqb_refl.
  - symmetry. apply key_eqb_neq. apply key_eqb_neq in E. congruence.
Qed.

Lemma dict_mem_false (k : key) (d : dict) :
  dict_mem k d = false <-> dict_get k d = None.
Proof.
  unfold dict_mem. destruct (dict_get k d); split; congruence.
Qed.

Lemma dict_mem_true (k : key) (d : dict) :
  dict_mem k d = true <-> exists v, dict_get k d = Some v.
Proof.
  unfold dict_mem. destruct (dict_get k d) as [v|]; split; intro H.
  - now exists v.
  - reflexivity.
  - discriminate.
  - destruct H as [v H]. discriminate.
Qed.

(** ** The query path *)

Lemma concat_all_app (a b : list string) :
  concat_all (a ++ b) = (concat_all a ++ concat_all b)%string.
Proof.
  induction a as [|x a IH]; simpl; [reflexivity|].
  now rewrite IH, append_assoc.
Qed.

Lemma keyword_segments (W : Collaborators) (kwargs : list (string * pyval)) :
  forall acc,
    fold_left (fun acc kv =>
                 (acc ++ "/" ++ fst kv ++ "/" ++ py_str W (snd kv))%string)
              kwargs acc
    = (acc ++ concat_all
               (map (fun kv => segment (fst kv) (py_str W (snd kv))) kwargs))%string.
Proof.
  induction kwargs as [|kv kwargs IH]; intro acc; simpl.
  - now rewrite append_nil_r.
  - rewrite IH. unfold segment.
    repeat (rewrite ?append_assoc; simpl). reflexivity.
Qed.

Lemma add_ids_segment (name : string) (ids : option (list Z)) (acc : string) :
  add_ids name ids acc = (acc ++ concat_all (id_segment name ids))%string.
Proof.
  destruct ids as [l|]; simpl.
  - unfold segment. now rewrite append_nil_r.
  - now rewrite append_nil_r.
Qed.

Lemma join_is_comma_joined (parts : list string) :
  join "," parts = comma_joined parts.
Proof.
  unfold join. induction parts as [|x [|y parts] IH]; try reflexivity.
  change (String.concat "," (x :: y :: parts))
    with (x ++ "," ++ String.concat "," (y :: parts))%string.
  now rewrite IH.
Qed.

Lemma keyword_text_is_str (W : Collaborators) (value : pyval) :
  py_str W value = keyword_text W value.
Proof. destruct value; reflexivity. Qed.

Lemma query_path_is_path_shape (W : Collaborators) (function : string)
    (id task setup flow uploader : option (list Z))
    (sort_order : option string) (kwargs : list (string * pyval)) :
  path_shape W function id task setup flow uploader sort_order kwargs
  = query_path W function id task setup flow uploader sort_order kwargs.
Proof.
  assert (I : forall name ids, id_segment name ids = ids_segment name ids).
  { intros name [l|]; [|reflexivity]. unfold id_segment, ids_segment, segment,
      comma_ints. now rewrite join_is_comma_joined. }
  unfold path_shape, query_path. rewrite !I.
  assert (K : map (fun kv => segment (fst kv) (py_str W (snd kv))) kwargs
              = map (fun kv => ("/" ++ fst kv ++ "/"
                                ++ keyword_text W (snd kv))%string) kwargs).
  { apply map_ext. intro kv. unfold segment.
    now rewrite keyword_text_is_str. }
  rewrite K. now destruct sort_order.
Qed.

Lemma decimal_reads_back (z : Z) : read_decimal (str_of_Z z) = Some z.
Proof.
  unfold read_decimal, str_of_Z. rewrite NilZero.isi.
  - cbn [option_map]. now rewrite DecimalZ.of_to.
  - intro E. pose proof (DecimalZ.of_to z) as O. rewrite E in O.
    cbn in O. subst z. discriminate E.
  - intro E. pose proof (DecimalZ.of_to z) as O. rewrite E in O.
    cbn in O. subst z. discriminate E.
Qed.

Lemma digits_have_no_comma (d : Decimal.uint) :
  has_comma (NilEmpty.string_of_uint d) = false.
Proof. induction d; simpl; [reflexivity | assumption ..]. Qed.

Lemma decimal_has_no_comma (z : Z) : has_comma (str_of_Z z) = false.
Proof.
  unfold str_of_Z.
  assert (U : forall d, has_comma (NilZero.string_of_uint d) = false).
  { intro d. destruct d; try reflexivity; apply digits_have_no_comma. }
  destruct (Z.to_int z) as [d|d]; simpl; [apply U|].
  unfold has_comma in *. simpl. apply U.
Qed.

Lemma split_without_comma (text : string) :
  has_comma text = false -> split_commas text = [text].
Proof.
  unfold has_comma. induction text as [|c text IH]; [reflexivity|].
  cbn [list_ascii_of_string existsb split_commas].
  intro H. apply orb_false_elim in H. destruct H as [Hc H].
  rewrite Ascii.eqb_sym in Hc. rewrite Hc, IH by assumption. reflexivity.
Qed.

Lemma split_at_first_comma (text rest : string) :
  has_comma text = false ->
  split_commas (text ++ "," ++ rest) = text :: split_commas rest.
Proof.
  unfold has_comma. induction text as [|c text IH]; [reflexivity|].
  cbn [list_ascii_of_string existsb].
  intro H. apply orb_false_elim in H. destruct H as [Hc H].
  rewrite Ascii.eqb_sym in Hc.
  change ((String c text ++ "," ++ rest)%string)
    with (String c (text ++ "," ++ rest)%string).
  cbn [split_commas]. rewrite Hc, IH by assumption. reflexivity.
Qed.

Lemma decimal_not_empty (z : Z) : str_of_Z z <> EmptyString.
Proof.
  intro E. pose proof (decimal_reads_back z) as R. rewrite E in R.
  discriminate R.
Qed.

Lemma ids_read_all (l : list Z) :
  l <> [] ->
  read_all (split_commas (comma_joined (map str_of_Z l))) = Some l.
Proof.
  induction l as [|z [|y l] IH]; intro H; [contradiction | |].
  - simpl. rewrite split_without_comma by apply decimal_has_no_comma.
    simpl. now rewrite decimal_reads_back.
  - change (comma_joined (map str_of_Z (z :: y :: l)))
      with (str_of_Z z ++ "," ++ comma_joined (map str_of_Z (y :: l)))%string.
    rewrite split_at_first_comma by apply decimal_has_no_comma.
    cbn [read_all]. rewrite decimal_reads_back, IH by discriminate.
    reflexivity.
Qed.

Lemma ids_read_back (l : list Z) :
  read_ids (comma_joined (map str_of_Z l)) = Some l.
Proof.
  destruct l as [|z l]; [reflexivity|].
  unfold read_ids.
  destruct (comma_joined (map str_of_Z (z :: l))) eqn:E.
  - exfalso. destruct l as [|y l]; simpl in E.
    + now apply (decimal_not_empty z).
    + pose proof (decimal_not_empty z) as N.
      destruct (str_of_Z z); [now apply N | discriminate E].
  - rewrite <- E. apply ids_read_all. discriminate.
Qed.

(** C7. For every combination of filters the query builder yields
    [evaluation/list/function/<metric>] followed by the [/name/value]
    segments of the keyword filters and then of run, task, setup, flow,
    uploader and sort_order, and this is the path [_list_evaluations]
    requests.  The value of an identifier segment is the identifiers in
    decimal joined by commas: split at its commas and read as decimal
    integers it gives the list back, and so does the decimal text of an
    integer keyword value. *)
Theorem api_call_has_path_shape (W : Collaborators) (function : string)
    (id task setup flow uploader : option (list Z))
    (sort_order : option string) (kwargs : list (string * pyval))
    (output_format : string) (t : trace) :
  api_call_of W function id task setup flow uploader sort_order kwargs
  = query_path W function id task setup flow uploader sort_order kwargs
  /\ snd (_list_evaluations W function id task setup flow uploader sort_order
                            output_format kwargs t)
     = (t ++ [HttpGet (query_path W function id task setup flow uploader
                                  sort_order kwargs)])%list
  /\ (forall l,
        read_ids (comma_joined
                    (map (fun z => NilZero.string_of_int (Z.to_int z)) l))
        = Some l)
  /\ (forall z, read_decimal (keyword_text W (PInt z)) = Some z).
Proof.
  assert (E : api_call_of W function id task setup flow uploader sort_order
                          kwargs
              = query_path W function id task setup flow uploader sort_order
                           kwargs).
  { rewrite <- query_path_is_path_shape.
    unfold api_call_of, path_shape.
    rewrite keyword_segments, !add_ids_segment, !concat_all_app.
    destruct sort_order as [o|]; simpl.
    - unfold segment. now rewrite ?append_assoc, ?append_nil_r.
    - now rewrite ?append_assoc, ?append_nil_r. }
  split; [exact E|]. split; [|split].
  - unfold _list_evaluations, __list_evaluations, bind, _perform_api_call, lift.
    rewrite E.
    destruct (http_get W t _); simpl; [|reflexivity].
    destruct (xml_parse W a _); reflexivity.
  - exact ids_read_back.
  - exact decimal_reads_back.
Qed.

Lemma api_call_has_path_shape_witness :
  api_call_of two_runs "predictive_accuracy" (Some [1; 2; 3]) (Some [31])
              None None None (Some "desc")
              [("limit", PInt 10); ("tag", PStr "study_14")]
  = "evaluation/list/function/predictive_accuracy/limit/10/tag/study_14/run/1,2,3/task/31/sort_order/desc"
  /\ read_ids "1,2,3" = Some [1; 2; 3].
Proof.
  destruct (@api_call_has_path_shape two_runs "predictive_accuracy"
              (Some [1; 2; 3]) (Some [31]) None None None (Some "desc")
              [("limit", PInt 10); ("tag", PStr "study_14")] "dict" [])
    as (E & _ & R & _).
  split; [rewrite E; reflexivity | exact (R [1; 2; 3])].
Defined.

(** ** Output format validation *)

(** C4, as stated, fails for the setup join: with the unrecognized format
    [xml] it raises nothing and has called the network. *)
Lemma setup_join_accepts_any_format :
  recognized "xml" = false /\
  ~ rejects_before_network
      (list_evaluations_setups two_runs Fixture.precision "xml") [] /\
  snd (list_evaluations_setups two_runs Fixture.precision "xml" [])
  = [HttpGet "evaluation/list/function/precision/limit/10/offset/0/task/31";
     ListSetups [PInt 5; PInt 9]].
Proof.
  split; [reflexivity|]. split; [|reflexivity].
  intros [msg H]. vm_compute in H. discriminate H.
Qed.

(** C4, amended. The plain listing raises the usage error for every
    unrecognized output format, before any network call.  The setup join does
    not validate the format: every format other than [dataframe] gives what
    [dict] gives. *)
Theorem output_format_validation (W : Collaborators) (a : arguments)
    (output_format : string) (t : trace) :
  (recognized output_format = false ->
   list_evaluations W a output_format t
   = (Raise (ValueError invalid_format_message), t)) /\
  (output_format <> "dataframe" ->
   list_evaluations_setups W a output_format t
   = list_evaluations_setups W a "dict" t).
Proof.
  split.
  - intro H. unfold list_evaluations. fold (recognized output_format).
    now rewrite H.
  - intro H. apply String.eqb_neq in H.
    unfold list_evaluations_setups, bind. now rewrite H.
Qed.

Lemma output_format_validation_witness :
  list_evaluations two_runs Fixture.precision "xml" []
  = (Raise (ValueError invalid_format_message), []) /\
  list_evaluations_setups two_runs Fixture.precision "xml" []
  = list_evaluations_setups two_runs Fixture.precision "dict" [].
Proof.
  split.
  - apply (proj1 (output_format_validation two_runs Fixture.precision "xml" [])).
    reflexivity.
  - apply (proj2 (output_format_validation two_runs Fixture.precision "xml" [])).
    discriminate.
Defined.

(** ** The empty evaluation listing *)

(** C5. When the evaluations fetched by the setup join are empty, the join
    returns the empty table, or the empty mapping, and the trace is the one
    the evaluation fetch left: no setup-fetch call is made. *)
Theorem empty_listing_skips_setups (W : Collaborators) (a : arguments)
    (output_format : string) (t t' : trace) (evals : listing) :
  list_evaluations W a "dataframe" t = (Ok evals, t') ->
  listing_len evals = 0%nat ->
  list_evaluations_setups W a output_format t
  = (Ok (if String.eqb output_format "dataframe"
         then Frame empty_frame else Mapping []), t').
Proof.
  intros H L. unfold list_evaluations_setups, joined_frame, bind.
  rewrite H, L. simpl.
  destruct (String.eqb output_format "dataframe"); reflexivity.
Qed.

Lemma empty_listing_skips_setups_witness :
  list_evaluations_setups no_runs Fixture.precision "dataframe" []
  = (Ok (Frame empty_frame),
     [HttpGet "evaluation/list/function/precision/limit/10/offset/0/task/31"]) /\
  list_evaluations_setups no_runs Fixture.precision "dict" []
  = (Ok (Mapping []),
     [HttpGet "evaluation/list/function/precision/limit/10/offset/0/task/31"]).
Proof.
  split.
  - apply (@empty_listing_skips_setups no_runs Fixture.precision "dataframe" []
             _ (Frame empty_frame)); reflexivity.
  - apply (@empty_listing_skips_setups no_runs Fixture.precision "dict" []
             _ (Frame empty_frame)); reflexivity.
Defined.

(** ** Documents without the collection tag *)

(** C6, as stated, fails for the measure list: its value error carries a
    fixed message, without the parsed document. *)
Lemma measure_error_omits_document :
  dict_mem (KStr "oml:evaluation_measures") error_document = false /\
  fst (list_evaluation_measures broken_document [])
  = Raise (ValueError (missing_tag_message "oml:evaluation_measures")) /\
  ~ embeds_document broken_document error_document
      (fst (list_evaluation_measures broken_document [])).
Proof.
  split; [reflexivity|]. split; [reflexivity|].
  intros [msg [H S]]. vm_compute in H. inversion H; subst msg.
  vm_compute in S. discriminate S.
Qed.

(** C6, amended. When the parsed document lacks the collection tag, both
    parsers raise a value error after their single request and nothing
    handles it; the evaluation-list parser's message ends with the parsed
    document, the measure-list parser's message is fixed text. *)
Theorem missing_collection_tag (W : Collaborators) (t : trace)
    (api_call output_format xml : string) (document : dict) :
  (http_get W t api_call = Ok xml ->
   xml_parse W xml (PTuple [PStr "oml:evaluation"]) = Ok document ->
   dict_mem (KStr "oml:evaluations") document = false ->
   __list_evaluations W api_call output_format t
   = (Raise (ValueError (missing_tag_message "oml:evaluations" ++ ": "
                         ++ py_str W (PDict document))%string),
      (t ++ [HttpGet api_call])%list)) /\
  (http_get W t "evaluationmeasure/list" = Ok xml ->
   xml_parse W xml (PStr "oml:measures") = Ok document ->
   dict_mem (KStr "oml:evaluation_measures") document = false ->
   list_evaluation_measures W t
   = (Raise (ValueError (missing_tag_message "oml:evaluation_measures")),
      (t ++ [HttpGet "evaluationmeasure/list"])%list)).
Proof.
  split; intros Hget Hparse Hmem.
  - unfold __list_evaluations, bind, _perform_api_call, lift.
    rewrite Hget, Hparse. unfold evaluations_of_document.
    now rewrite Hmem.
  - unfold list_evaluation_measures, bind, _perform_api_call, lift.
    rewrite Hget, Hparse. unfold measures_of_document.
    now rewrite Hmem.
Qed.

Lemma missing_collection_tag_witness :
  __list_evaluations broken_document "evaluation/list/function/precision"
                     "dict" []
  = (Raise (ValueError (missing_tag_message "oml:evaluations" ++ ": "
                        ++ py_str broken_document (PDict error_document))%string),
     [HttpGet "evaluation/list/function/precision"]) /\
  list_evaluation_measures broken_document []
  = (Raise (ValueError (missing_tag_message "oml:evaluation_measures")),
     [HttpGet "evaluationmeasure/list"]).
Proof.
  split.
  - apply (proj1 (@missing_collection_tag broken_document []
                    "evaluation/list/function/precision" "dict" "<xml/>"
                    error_document)); reflexivity.
  - apply (proj2 (@missing_collection_tag broken_document []
                    "evaluation/list/function/precision" "dict" "<xml/>"
                    error_document)); reflexivity.
Defined.

(** ** The accumulation loop *)

Lemma map_result_cons {A B} (f : A -> result B) (x : A) (l : list A)
    (ys : list B) :
  map_result f (x :: l) = Ok ys ->
  exists y ys', f x = Ok y /\ map_result f l = Ok ys' /\ ys = y :: ys'.
Proof.
  simpl. destruct (f x) as [y|e]; simpl; [|discriminate].
  destruct (map_result f l) as [ys'|e]; simpl; [|discriminate].
  intro H. inversion H. now exists y, ys'.
Qed.

Lemma map_result_length {A B} (f : A -> result B) (l : list A) :
  forall ys, map_result f l = Ok ys -> List.length ys = List.length l.
Proof.
  induction l as [|x l IH]; intros ys H.
  - inversion H. reflexivity.
  - apply map_result_cons in H. destruct H as (y & ys' & _ & H & ->).
    simpl. now rewrite (IH _ H).
Qed.

Lemma accumulate_stores (W : Collaborators) (output_format : string)
    (elements : list pyval) :
  forall records evals,
    map_result (decode_evaluation W output_format) elements = Ok records ->
    accumulate W output_format elements evals = Ok (store_all records evals).
Proof.
  induction elements as [|e elements IH]; intros records evals H.
  - inversion H. reflexivity.
  - apply map_result_cons in H. destruct H as (r & rs & Hr & Hrs & ->).
    simpl. rewrite Hr. simpl. now apply IH.
Qed.

Lemma accumulate_decodes (W : Collaborators) (output_format : string)
    (elements : list pyval) :
  forall evals evals',
    accumulate W output_format elements evals = Ok evals' ->
    exists records,
      map_result (decode_evaluation W output_format) elements = Ok records.
Proof.
  induction elements as [|e elements IH]; intros evals evals' H.
  - now exists [].
  - simpl in H. simpl.
    destruct (decode_evaluation W output_format e) as [r|x]; simpl in *;
      [|discriminate].
    destruct (IH _ _ H) as [rs Hrs]. rewrite Hrs. simpl. now exists (r :: rs).
Qed.

Lemma dict_get_set (q k : key) (v : pyval) (d : dict) :
  dict_get q (dict_set k v d) = if key_eqb q k then Some v else dict_get q d.
Proof.
  induction d as [|[k' v'] d IH]; simpl.
  - reflexivity.
  - destruct (key_eqb k k') eqn:E; simpl.
    + apply key_eqb_eq in E. subst k'. now destruct (key_eqb q k).
    + rewrite IH. destruct (key_eqb q k') eqn:E'; [|reflexivity].
      apply key_eqb_eq in E'. subst k'. rewrite key_eqb_sym in E.
      now rewrite E.
Qed.

Lemma dict_keys_set (k : key) (v : pyval) (d : dict) :
  dict_keys (dict_set k v d)
  = if existsb (key_eqb k) (dict_keys d) then dict_keys d
    else (dict_keys d ++ [k])%list.
Proof.
  unfold dict_keys. induction d as [|[k' v'] d IH]; simpl.
  - reflexivity.
  - destruct (key_eqb k k') eqn:E; simpl; [reflexivity|].
    rewrite IH. now destruct (existsb (key_eqb k) (map fst d)).
Qed.

Lemma existsb_KInt (k : Z) (seen : list Z) :
  existsb (key_eqb (KInt k)) (map KInt seen) = existsb (Z.eqb k) seen.
Proof.
  induction seen as [|x seen IH]; simpl; [reflexivity | now rewrite IH].
Qed.

Lemma store_all_keys (records : list (Z * pyval)) :
  forall evals seen,
    dict_keys evals = map KInt seen ->
    dict_keys (store_all records evals)
    = map KInt (seen ++ first_seen seen (map fst records)).
Proof.
  induction records as [|[k v] records IH]; intros evals seen H; simpl.
  - now rewrite app_nil_r.
  - pose proof (dict_keys_set (KInt k) v evals) as S.
    rewrite H, existsb_KInt in S.
    destruct (existsb (Z.eqb k) seen) eqn:E.
    + now apply IH.
    + rewrite (IH _ (seen ++ [k])%list).
      * now rewrite <- app_assoc.
      * rewrite S, map_app. reflexivity.
Qed.

Lemma store_all_get (k : Z) (records : list (Z * pyval)) :
  forall evals,
    dict_get (KInt k) (store_all records evals)
    = match last_record k records with
      | Some v => Some v
      | None => dict_get (KInt k) evals
      end.
Proof.
  induction records as [|[k' v] records IH]; intro evals; simpl.
  - reflexivity.
  - rewrite IH. destruct (last_record k records); [reflexivity|].
    rewrite dict_get_set. simpl. rewrite Z.eqb_sym.
    now destruct (k' =? k).
Qed.

(** C8. The records of a response are accumulated in a mapping keyed by run
    identifier whose keys stand in the order in which the identifiers first
    appear in the response; when several records share a run identifier the
    mapping holds the last of them, and nothing is raised for it. *)
Theorem accumulate_keeps_order_and_last (W : Collaborators)
    (output_format : string) (elements : list pyval)
    (records : list (Z * pyval)) :
  map_result (decode_evaluation W output_format) elements = Ok records ->
  exists evals,
    accumulate W output_format elements [] = Ok evals /\
    dict_keys evals = map KInt (first_seen [] (map fst records)) /\
    forall k, dict_get (KInt k) evals = last_record k records.
Proof.
  intro H. exists (store_all records []). split; [|split].
  - now apply accumulate_stores.
  - now rewrite (store_all_keys records [] []).
  - intro k. rewrite store_all_get. simpl.
    now destruct (last_record k records).
Qed.

Lemma accumulate_keeps_order_and_last_witness :
  exists records evals,
    map_result (decode_evaluation two_runs "dict") repeated_run = Ok records /\
    accumulate two_runs "dict" repeated_run [] = Ok evals /\
    dict_keys evals = [KInt 1; KInt 2] /\
    dict_get (KInt 1) evals = last_record 1 records /\
    option_map (fun r => getitem r (KStr "setup_id")) (dict_get (KInt 1) evals)
    = Some (Ok (PInt 6)).
Proof.
  destruct (map_result (decode_evaluation two_runs "dict") repeated_run)
    as [records|] eqn:E; [|vm_compute in E; discriminate E].
  destruct (@accumulate_keeps_order_and_last two_runs "dict" repeated_run
              records E) as (evals & Ha & Hk & Hg).
  exists records, evals. split; [reflexivity|]. split; [exact Ha|].
  vm_compute in E. inversion E; subst records. clear E.
  split; [exact Hk|]. split; [apply Hg|].
  rewrite Hg. reflexivity.
Defined.

(** ** The three shape fields *)

(** C1, as stated, fails in each output format: an element that carries both
    [oml:value] and [oml:array_data] gives a record with both non-null. *)
Lemma value_and_array_data_together :
  ~ shapes_exclusive two_runs "evaluation/list/function/precision" "object" []
  /\ ~ shapes_exclusive two_runs "evaluation/list/function/precision" "dict" []
  /\ ~ shapes_exclusive two_runs "evaluation/list/function/precision"
                        "dataframe" [].
Proof.
  assert (E : forall output_format,
             In output_format ["object"; "dict"; "dataframe"] ->
             exists l t' record rest,
               __list_evaluations two_runs "evaluation/list/function/precision"
                                  output_format [] = (Ok l, t') /\
               records_of l = record :: rest /\ shapes record = 2%nat).
  { intros f [<-|[<-|[<-|[]]]]; do 4 eexists;
      (split; [vm_compute; reflexivity|]);
      (split; [vm_compute; reflexivity|]); vm_compute; reflexivity. }
  repeat split; intro H;
    match goal with
    | H : shapes_exclusive _ _ ?f _ |- _ =>
        destruct (E f ltac:(simpl; tauto))
          as (l & t' & record & rest & Hrun & Hrec & Hs)
    end;
    specialize (H _ _ Hrun); rewrite Hrec in H;
    inversion H as [|? ? Hle _]; subst; lia.
Qed.

Section Readers.

Variable W : Collaborators.
Variable d : dict.

Lemma read_value_of_dict :
  read_value W (PDict d)
  = match dict_get (KStr "oml:value") d with
    | Some x => rbind (py_float W x) (fun f => Ok (PFloat f))
    | None => Ok PNone
    end.
Proof.
  unfold read_value, contains, dict_mem, getitem.
  now destruct (dict_get (KStr "oml:value") d).
Qed.

Lemma read_values_of_dict :
  read_values W (PDict d)
  = match dict_get (KStr "oml:values") d with
    | Some x => json_loads W x
    | None => Ok PNone
    end.
Proof.
  unfold read_values, contains, dict_mem, getitem.
  now destruct (dict_get (KStr "oml:values") d).
Qed.

Lemma read_array_data_of_dict :
  read_array_data (PDict d)
  = match dict_get (KStr "oml:array_data") d with
    | Some x => Ok x
    | None => Ok PNone
    end.
Proof.
  unfold read_array_data, contains, dict_mem, getitem.
  now destruct (dict_get (KStr "oml:array_data") d).
Qed.

End Readers.

Lemma decode_needs_dict (W : Collaborators) (output_format : string)
    (eval_ : pyval) (r : Z * pyval) :
  decode_evaluation W output_format eval_ = Ok r -> exists d, eval_ = PDict d.
Proof.
  intro H.
  destruct eval_ as [| | | | |l|l|d|l]; try discriminate H.
  now exists d.
Qed.

(** What a successful decoding returns: the record of the element's header
    and its three readers, as an object or as a dictionary. *)
Lemma decode_inversion (W : Collaborators) (output_format : string)
    (eval_ : pyval) (r : Z * pyval) :
  decode_evaluation W output_format eval_ = Ok r ->
  exists h value values array_data,
    read_value W eval_ = Ok value /\
    read_values W eval_ = Ok values /\
    read_array_data eval_ = Ok array_data /\
    snd r = if String.eqb output_format "object"
            then evaluation_object h value values array_data
            else evaluation_dict h value values array_data.
Proof.
  unfold decode_evaluation. intro H.
  destruct (int_field W eval_ "oml:run_id") as [run_id|]; [|discriminate H].
  destruct (read_value W eval_) as [value|]; [|discriminate H].
  destruct (read_values W eval_) as [values|]; [|discriminate H].
  destruct (read_array_data eval_) as [array_data|]; [|discriminate H].
  destruct (read_header W eval_) as [h|]; [|discriminate H].
  simpl in H. exists h, value, values, array_data.
  repeat split.
  destruct (String.eqb output_format "object"); inversion H; reflexivity.
Qed.

(** The record decoded from a dictionary element follows the element's
    tags. *)
Lemma decoded_fields_follow_tags (W : Collaborators) (output_format : string)
    (eval_ : pyval) (run_id : Z) (record : pyval) :
  decode_evaluation W output_format eval_ = Ok (run_id, record) ->
  exists d, eval_ = PDict d /\ follows_tags W d record.
Proof.
  intro H. destruct (decode_needs_dict _ _ _ H) as [d ->]. exists d.
  split; [reflexivity|].
  destruct (decode_inversion _ _ _ H)
    as (h & value & values & array_data & Hv & Hvs & Ha & Hr).
  simpl in Hr. rewrite read_value_of_dict in Hv.
  rewrite read_values_of_dict in Hvs. rewrite read_array_data_of_dict in Ha.
  assert (F : record_value record = Some value /\
              record_values record = Some values /\
              record_array_data record = Some array_data).
  { rewrite Hr. destruct (String.eqb output_format "object"); repeat split. }
  destruct F as (Fv & Fvs & Fa). unfold follows_tags. rewrite Fv, Fvs, Fa.
  repeat split.
  - intro E. rewrite E in Hv. congruence.
  - intros x E. rewrite E in Hv. destruct (py_float W x) as [f|]; simpl in Hv;
      [|discriminate]. exists f. split; congruence.
  - intro E. rewrite E in Hvs. congruence.
  - intros x E. rewrite E in Hvs. exists values. split; [assumption|reflexivity].
  - intro E. rewrite E in Ha. congruence.
  - intros x E. rewrite E in Ha. congruence.
Qed.

(** ** The frame of a response *)

Lemma seq_index_head {A} (x : A) (l : list A) : seq_index (x :: l) 0 = Ok x.
Proof.
  unfold seq_index. change (0 <? 0) with false. cbv iota.
  destruct (Z.leb_spec (Z.of_nat (List.length (x :: l))) 0) as [H|H].
  - simpl List.length in H. lia.
  - reflexivity.
Qed.

Lemma dict_set_values (P : pyval -> Prop) (k : key) (v : pyval) (d : dict) :
  P v -> Forall P (dict_values d) -> Forall P (dict_values (dict_set k v d)).
Proof.
  intros Hv. unfold dict_values.
  induction d as [|[k' v'] d IH]; simpl; intro H.
  - now constructor.
  - inversion H; subst. destruct (key_eqb k k'); simpl; constructor; auto.
Qed.

Lemma store_all_values (P : pyval -> Prop) (records : list (Z * pyval)) :
  forall evals,
    Forall (fun r => P (snd r)) records ->
    Forall P (dict_values evals) ->
    Forall P (dict_values (store_all records evals)).
Proof.
  induction records as [|r records IH]; intros evals Hr He; simpl.
  - exact He.
  - inversion Hr; subst. apply IH; [assumption|].
    now apply dict_set_values.
Qed.

Lemma dict_set_nonempty (k : key) (v : pyval) (d : dict) : dict_set k v d <> [].
Proof.
  destruct d as [|[k' v'] d]; simpl; [discriminate|].
  destruct (key_eqb k k'); discriminate.
Qed.

Lemma store_all_nonempty (records : list (Z * pyval)) :
  forall evals, evals <> [] -> store_all records evals <> [].
Proof.
  induction records as [|r records IH]; intros evals H; simpl.
  - exact H.
  - apply IH. apply dict_set_nonempty.
Qed.

Lemma decoded_dicts (W : Collaborators) (output_format : string)
    (elements : list pyval) :
  String.eqb output_format "object" = false ->
  forall records,
    map_result (decode_evaluation W output_format) elements = Ok records ->
    Forall (fun r => is_evaluation_dict (snd r)) records.
Proof.
  intro F. induction elements as [|e elements IH]; intros records H.
  - inversion H. constructor.
  - apply map_result_cons in H. destruct H as (r & rs & Hr & Hrs & ->).
    constructor; [|now apply IH].
    destruct (decode_inversion _ _ _ Hr) as (h & v & vs & ad & _ & _ & _ & E).
    rewrite F in E. now exists h, v, vs, ad.
Qed.

Lemma list_evaluations_run (W : Collaborators) (api_call output_format : string)
    (t : trace) (xml : string) (document : dict) (root : pyval) :
  http_get W t api_call = Ok xml ->
  xml_parse W xml (PTuple [PStr "oml:evaluation"]) = Ok document ->
  dict_get (KStr "oml:evaluations") document = Some root ->
  __list_evaluations W api_call output_format t
  = (rbind (getitem root (KStr "oml:evaluation"))
       (fun elements =>
          match elements with
          | PList l =>
              rbind (accumulate W output_format l [])
                    (project W output_format)
          | _ => Raise AssertionError
          end),
     (t ++ [HttpGet api_call])%list).
Proof.
  intros Hget Hparse Hroot.
  unfold __list_evaluations, bind, _perform_api_call, lift.
  rewrite Hget, Hparse. f_equal.
  unfold evaluations_of_document.
  assert (Hmem : dict_mem (KStr "oml:evaluations") document = true).
  { apply dict_mem_true. now exists root. }
  rewrite Hmem. cbn [negb getitem]. rewrite Hroot. cbn [rbind].
  destruct (getitem root (KStr "oml:evaluation")) as [elements|];
    [|reflexivity].
  cbn [rbind]. destruct elements; reflexivity.
Qed.

Lemma nth_error_seq_at (start len i : nat) :
  (i < len)%nat -> nth_error (seq start len) i = Some (start + i)%nat.
Proof.
  revert start i. induction len as [|len IH]; intros start i H; [lia|].
  destruct i as [|i]; simpl.
  - now rewrite Nat.add_0_r.
  - rewrite IH by lia. f_equal. lia.
Qed.

Lemma to_float_coerced (W : Collaborators) (v : pyval) :
  coerced W v (to_float W v).
Proof.
  destruct v; try (now left).
  - right. now left.
  - simpl. destruct (py_float W (PInt z)) as [f|] eqn:E; [|now left].
    right. right. now exists z, f.
Qed.

Lemma converted_cell (W : Collaborators) (column_ : list pyval) (i : nat)
    (v : pyval) :
  nth_error column_ i = Some v ->
  coerced W v (nth i (maybe_convert_objects W column_) NaN).
Proof.
  intro H. unfold maybe_convert_objects.
  destruct (gives_floats (scan column_)).
  - rewrite (@nth_error_nth _ (map (to_float W) column_) i (to_float W v) NaN).
    + apply to_float_coerced.
    + now rewrite nth_error_map, H.
  - rewrite (@nth_error_nth _ column_ i v NaN H). now left.
Qed.

Lemma scan_of_integers (column_ : list pyval) :
  Forall (fun v => exists z, v = PInt z) column_ ->
  forall s,
    null_ s = false -> float_ s = false ->
    null_ (fold_left see column_ s) = false /\
    float_ (fold_left see column_ s) = false.
Proof.
  induction 1 as [|v column_ [z ->] _ IH]; intros s Hn Hf; simpl.
  - now split.
  - apply IH; destruct s as [n b i u si f o]; simpl in *; subst;
      now destruct o.
Qed.

Lemma integers_stay (W : Collaborators) (column_ : list pyval) :
  Forall (fun v => exists z, v = PInt z) column_ ->
  maybe_convert_objects W column_ = column_.
Proof.
  intro H. unfold maybe_convert_objects, scan.
  destruct (scan_of_integers H nothing_seen eq_refl eq_refl) as [Hn Hf].
  unfold gives_floats. rewrite Hn, Hf. now rewrite andb_false_r.
Qed.

Lemma from_records_row (W : Collaborators) (rows : list pyval)
    (cols : list key) (i : nat) (r : pyval) :
  nth_error rows i = Some r ->
  nth_error (data (from_records W rows cols)) i
  = Some (map (fun c =>
                 nth i (maybe_convert_objects W
                          (map (fun r => cell_of r c) rows)) NaN)
              cols).
Proof.
  intro H. unfold from_records. cbn [data].
  assert (L : (i < List.length rows)%nat)
    by (apply nth_error_Some; congruence).
  rewrite nth_error_map, (@nth_error_seq_at 0 _ i L). cbn [option_map Nat.add].
  now rewrite map_map.
Qed.

Lemma from_records_length (W : Collaborators) (rows : list pyval)
    (cols : list key) :
  List.length (data (from_records W rows cols)) = List.length rows.
Proof.
  unfold from_records. cbn [data]. now rewrite length_map, length_seq.
Qed.

(** The row a frame has for a record: twelve cells, each built from the
    record's field under the column name, the identifiers unchanged. *)
Lemma frame_row_of_record (W : Collaborators) (rows : list pyval) (i : nat)
    (r : pyval) :
  Forall is_evaluation_dict rows ->
  nth_error rows i = Some r ->
  exists row,
    nth_error (data (from_records W rows evaluation_columns)) i = Some row /\
    List.length row = 12%nat /\
    forall j c,
      nth_error evaluation_columns j = Some c ->
      exists v cell,
        getitem r c = Ok v /\ nth_error row j = Some cell /\
        coerced W v cell /\ ((j < 4)%nat -> cell = v).
Proof.
  intros HD Hr. eexists.
  split; [exact (@from_records_row W rows evaluation_columns i r Hr)|].
  split; [reflexivity|]. intros j c Hc.
  assert (Er : is_evaluation_dict r).
  { eapply Forall_forall; [exact HD|]. eapply nth_error_In; exact Hr. }
  destruct Er as (h & val & vals & ad & ->).
  assert (Hints : forall c',
             In c' [KStr "run_id"; KStr "task_id"; KStr "setup_id";
                    KStr "flow_id"] ->
             Forall (fun v => exists z, v = PInt z)
                    (map (fun r => cell_of r c') rows)).
  { intros c' I. apply Forall_map. eapply Forall_impl; [|exact HD].
    intros r' (h' & v' & vs' & ad' & ->).
    destruct I as [<-|[<-|[<-|[<-|[]]]]]; eexists; reflexivity. }
  unfold evaluation_columns in Hc.
  do 12 (destruct j as [|j];
         [ cbn [nth_error] in Hc; inversion Hc; subst c; clear Hc;
           eexists; eexists; split; [reflexivity|]; split; [reflexivity|];
           split;
           [ apply converted_cell; rewrite nth_error_map, Hr; reflexivity |];
           intro Hj; try lia;
           rewrite integers_stay by (apply Hints; simpl; tauto);
           erewrite nth_error_nth by (rewrite nth_error_map, Hr; reflexivity);
           reflexivity
         | ]).
  destruct j; discriminate Hc.
Qed.

Lemma record_of_row (row : list pyval) :
  List.length row = 12%nat ->
  record_value (PDict (combine evaluation_columns row)) = nth_error row 9 /\
  record_values (PDict (combine evaluation_columns row)) = nth_error row 10 /\
  record_array_data (PDict (combine evaluation_columns row))
  = nth_error row 11.
Proof.
  intro H.
  do 12 (destruct row as [|? row]; [discriminate H|]).
  destruct row; [|discriminate H]. repeat split.
Qed.

Lemma coerced_none (W : Collaborators) (c : pyval) :
  coerced W PNone c -> is_null c = true.
Proof.
  intros [->|[[_ ->]|(z & f & E & _)]]; [reflexivity | reflexivity |].
  discriminate E.
Qed.

Lemma coerced_float (W : Collaborators) (f : Z) (c : pyval) :
  coerced W (PFloat f) c -> c = PFloat f.
Proof.
  intros [->|[[E _]|(z & g & E & _)]]; [reflexivity | |]; discriminate E.
Qed.




(** ** The records a listing returns *)

Lemma map_result_In {A B} (f : A -> result B) (l : list A) :
  forall ys,
    map_result f l = Ok ys ->
    Forall (fun y => exists x, In x l /\ f x = Ok y) ys.
Proof.
  induction l as [|x l IH]; intros ys H.
  - inversion H. constructor.
  - apply map_result_cons in H. destruct H as (y & ys' & Hy & Hys & ->).
    constructor.
    + exists x. split; [now left | assumption].
    + eapply Forall_impl; [|apply IH, Hys].
      intros b (x' & I & E). exists x'. split; [now right | assumption].
Qed.

(** What a successful run of [__list_evaluations] went through. *)
Lemma list_evaluations_inversion (W : Collaborators)
    (api_call output_format : string) (t t' : trace) (l : listing) :
  __list_evaluations W api_call output_format t = (Ok l, t') ->
  exists xml document root elements evals,
    http_get W t api_call = Ok xml /\
    xml_parse W xml (PTuple [PStr "oml:evaluation"]) = Ok document /\
    dict_get (KStr "oml:evaluations") document = Some root /\
    getitem root (KStr "oml:evaluation") = Ok (PList elements) /\
    accumulate W output_format elements [] = Ok evals /\
    t' = (t ++ [HttpGet api_call])%list /\
    ((String.eqb output_format "dataframe" = false /\ l = Mapping evals) \/
     (String.eqb output_format "dataframe" = true /\
      exists first cols,
        seq_index (dict_values evals) 0 = Ok first /\
        keys_of first = Ok cols /\
        l = Frame (from_records W (dict_values evals) cols))).
Proof.
  unfold __list_evaluations, bind, _perform_api_call, lift. intro H.
  destruct (http_get W t api_call) as [xml|] eqn:Hget; [|discriminate H].
  destruct (xml_parse W xml _) as [document|] eqn:Hparse; [|discriminate H].
  inversion H as [[Hl Ht]]. clear H.
  unfold evaluations_of_document in Hl.
  destruct (dict_mem (KStr "oml:evaluations") document) eqn:Hmem;
    [|discriminate Hl].
  apply dict_mem_true in Hmem. destruct Hmem as [root Hroot].
  cbn [negb getitem] in Hl. rewrite Hroot in Hl. cbn [rbind] in Hl.
  destruct (getitem root (KStr "oml:evaluation")) as [elements|] eqn:Hel;
    [|discriminate Hl].
  cbn [rbind] in Hl.
  destruct elements as [| | | | |els|els|d|els]; try discriminate Hl.
  destruct (accumulate W output_format els []) as [evals|] eqn:Hacc;
    [|discriminate Hl].
  cbn [rbind] in Hl.
  exists xml, document, root, els, evals.
  repeat (split; [assumption || reflexivity|]).
  destruct (String.eqb output_format "dataframe").
  - right. split; [reflexivity|].
    destruct (seq_index (dict_values evals) 0) as [first|] eqn:Hfirst;
      [|discriminate Hl].
    cbn [rbind] in Hl.
    destruct (keys_of first) as [cols|] eqn:Hcols; [|discriminate Hl].
    cbn [rbind] in Hl. inversion Hl. now exists first, cols.
  - left. split; [reflexivity|]. now inversion Hl.
Qed.

(** What a returned frame is made of: the accumulated dictionaries, under
    the twelve evaluation columns. *)
Lemma returned_frame (W : Collaborators) (elements : list pyval)
    (evals : dict) (first : pyval) (cols : list key) :
  accumulate W "dataframe" elements [] = Ok evals ->
  seq_index (dict_values evals) 0 = Ok first ->
  keys_of first = Ok cols ->
  Forall is_evaluation_dict (dict_values evals) /\ cols = evaluation_columns.
Proof.
  intros Hacc Hfirst Hcols.
  destruct (accumulate_decodes _ _ _ _ Hacc) as [records Hdec].
  assert (HD : Forall is_evaluation_dict (dict_values evals)).
  { rewrite (accumulate_stores _ _ _ [] Hdec) in Hacc.
    inversion Hacc; subst evals.
    apply store_all_values; [|constructor].
    now apply (decoded_dicts W "dataframe" elements). }
  split; [exact HD|].
  destruct (dict_values evals) as [|r rows]; [discriminate Hfirst|].
  rewrite seq_index_head in Hfirst. inversion Hfirst; subst first.
  inversion HD as [|? ? (h & v & vs & ad & Hr) _]; subst.
  now inversion Hcols.
Qed.

(** C1, amended. Every record a listing returns, in each output format, was
    built from an element of the response.  In the mappings each of its
    fields value, values and array_data is None when that element lacks the
    field's tag and otherwise holds what the tag decodes to: the float of
    [oml:value], the JSON of [oml:values], the raw [oml:array_data].  In a
    frame the same holds as the column conversion leaves it: an absent tag
    gives None or NaN, a present [oml:value] its float, and the other two
    their content, where None may have become NaN and an integer a float.
    The three are filled independently of each other. *)
Theorem shape_fields_follow_tags (W : Collaborators)
    (api_call output_format : string) (t t' : trace) (l : listing) :
  __list_evaluations W api_call output_format t = (Ok l, t') ->
  exists xml document root elements,
    http_get W t api_call = Ok xml /\
    xml_parse W xml (PTuple [PStr "oml:evaluation"]) = Ok document /\
    dict_get (KStr "oml:evaluations") document = Some root /\
    getitem root (KStr "oml:evaluation") = Ok (PList elements) /\
    Forall (fun record =>
              exists d,
                In (PDict d) elements /\
                if String.eqb output_format "dataframe"
                then follows_tags_in_frame W d record
                else follows_tags W d record)
           (records_of l).
Proof.
  intro H.
  destruct (list_evaluations_inversion _ _ _ _ H)
    as (xml & document & root & elements & evals & Hget & Hparse & Hroot
        & Hel & Hacc & _ & Hl).
  exists xml, document, root, elements.
  repeat (split; [assumption|]).
  destruct (accumulate_decodes _ _ _ _ Hacc) as [records Hdec].
  set (P := fun record =>
              exists d, In (PDict d) elements /\ follows_tags W d record).
  assert (HP : Forall P (dict_values evals)).
  { rewrite (accumulate_stores _ _ _ [] Hdec) in Hacc.
    inversion Hacc; subst evals.
    apply store_all_values; [|constructor].
    eapply Forall_impl; [|apply (map_result_In _ _ Hdec)].
    intros [rid record] (e & I & E).
    destruct (decoded_fields_follow_tags _ _ _ E) as (d & -> & F).
    now exists d. }
  destruct Hl as [[F ->]|[F (first & cols & Hfirst & Hcols & ->)]];
    rewrite F.
  - exact HP.
  - apply String.eqb_eq in F. subst output_format.
    destruct (@returned_frame W elements evals first cols Hacc Hfirst Hcols)
      as [HD ->].
    unfold records_of.
    change (columns (from_records W (dict_values evals) evaluation_columns))
      with evaluation_columns.
    apply Forall_forall.
    intros record I. apply in_map_iff in I. destruct I as (row & <- & I).
    apply In_nth_error in I. destruct I as [i Hi].
    assert (Li : (i < List.length (dict_values evals))%nat).
    { rewrite <- (from_records_length W (dict_values evals)
                    evaluation_columns).
      apply nth_error_Some. congruence. }
    destruct (nth_error (dict_values evals) i) as [r|] eqn:Hr;
      [|apply nth_error_None in Hr; lia].
    destruct (@frame_row_of_record W (dict_values evals) i r HD Hr)
      as (row' & Hrow & Hlen & Hcells).
    rewrite Hi in Hrow. inversion Hrow; subst row'. clear Hrow.
    assert (Pr : P r).
    { eapply Forall_forall; [exact HP|]. eapply nth_error_In; exact Hr. }
    destruct Pr as (d & Id & Fv & Fx & Fvs & Fxs & Fa & Fxa).
    exists d. split; [exact Id|].
    destruct (@record_of_row row Hlen) as (Rv & Rvs & Ra).
    assert (Er : is_evaluation_dict r).
    { eapply Forall_forall; [exact HD|]. eapply nth_error_In; exact Hr. }
    destruct Er as (h & val & vals & ad & ->).
    destruct (Hcells 9%nat (KStr "value") eq_refl)
      as (v9 & c9 & G9 & N9 & C9 & _).
    destruct (Hcells 10%nat (KStr "values") eq_refl)
      as (v10 & c10 & G10 & N10 & C10 & _).
    destruct (Hcells 11%nat (KStr "array_data") eq_refl)
      as (v11 & c11 & G11 & N11 & C11 & _).
    inversion G9; inversion G10; inversion G11; subst v9 v10 v11.
    unfold follows_tags_in_frame. rewrite Rv, Rvs, Ra, N9, N10, N11.
    cbn [record_value record_values record_array_data record_field
         evaluation_dict] in Fv, Fx, Fvs, Fxs, Fa, Fxa.
    repeat split.
    + intro E. specialize (Fv E). inversion Fv; subst val.
      exists c9. split; [reflexivity | now apply (@coerced_none W c9)].
    + intros x E. destruct (Fx x E) as (f & Hf & Hv).
      inversion Hv; subst val. exists f. split; [assumption|].
      f_equal. now apply (@coerced_float W f c9).
    + intro E. specialize (Fvs E). inversion Fvs; subst vals.
      exists c10. split; [reflexivity | now apply (@coerced_none W c10)].
    + intros x E. destruct (Fxs x E) as (v & Hv & Hs).
      inversion Hs; subst vals. now exists v, c10.
    + intro E. specialize (Fa E). inversion Fa; subst ad.
      exists c11. split; [reflexivity | now apply (@coerced_none W c11)].
    + intros x E. specialize (Fxa x E). inversion Fxa; subst ad.
      now exists c11.
Qed.

Lemma shape_fields_follow_tags_witness :
  exists l t',
    __list_evaluations two_runs "evaluation/list/function/precision"
                       "dataframe" [] = (Ok l, t') /\
    option_map shapes (nth_error (records_of l) 0) = Some 2%nat /\
    option_map record_value (nth_error (records_of l) 1) = Some (Some NaN) /\
    exists xml document root elements,
      http_get two_runs [] "evaluation/list/function/precision" = Ok xml /\
      xml_parse two_runs xml (PTuple [PStr "oml:evaluation"]) = Ok document /\
      dict_get (KStr "oml:evaluations") document = Some root /\
      getitem root (KStr "oml:evaluation") = Ok (PList elements) /\
      Forall (fun record =>
                exists d,
                  In (PDict d) elements /\
                  follows_tags_in_frame two_runs d record)
             (records_of l).
Proof.
  eexists. eexists. split; [vm_compute; reflexivity|].
  split; [vm_compute; reflexivity|]. split; [vm_compute; reflexivity|].
  eapply (@shape_fields_follow_tags two_runs
            "evaluation/list/function/precision" "dataframe" []).
  vm_compute. reflexivity.
Defined.

(** ** Equality of values *)

Lemma pyval_eqb_eq : forall a b, pyval_eqb a b = true -> a = b.
Proof.
  fix IH 1. intros a b.
  destruct a as [|x|x|x|x|l|l|d|l]; destruct b as [|y|y|y|y|m|m|e|m];
    simpl; try discriminate; intro H.
  - reflexivity.
  - apply Bool.eqb_prop in H. now subst.
  - apply Z.eqb_eq in H. now subst.
  - apply Z.eqb_eq in H. now subst.
  - apply String.eqb_eq in H. now subst.
  - f_equal. revert m H.
    induction l as [|x l IHl]; intros [|y m] H; try discriminate;
      [reflexivity|].
    apply andb_prop in H. destruct H as [H1 H2].
    apply IH in H1. apply IHl in H2. now subst.
  - f_equal. revert m H.
    induction l as [|x l IHl]; intros [|y m] H; try discriminate;
      [reflexivity|].
    apply andb_prop in H. destruct H as [H1 H2].
    apply IH in H1. apply IHl in H2. now subst.
  - f_equal. revert e H.
    induction d as [|[k x] d IHd]; intros [|[k' y] e] H; try discriminate;
      [reflexivity|].
    apply andb_prop in H. destruct H as [H1 H3].
    apply andb_prop in H1. destruct H1 as [H1 H2].
    apply key_eqb_eq in H1. apply IH in H2. apply IHd in H3. now subst.
  - f_equal. revert m H.
    induction l as [|x l IHl]; intros [|y m] H; try discriminate;
      [reflexivity|].
    apply andb_prop in H. destruct H as [H1 H2].
    apply IH in H1. apply IHl in H2. now subst.
Qed.

Lemma pyval_eqb_refl : forall a, pyval_eqb a a = true.
Proof.
  fix IH 1. intro a.
  destruct a as [|x|x|x|x|l|l|d|l]; simpl.
  - reflexivity.
  - apply Bool.eqb_reflx.
  - apply Z.eqb_refl.
  - apply Z.eqb_refl.
  - apply String.eqb_refl.
  - induction l as [|x l IHl]; [reflexivity|]. now rewrite IH, IHl.
  - induction l as [|x l IHl]; [reflexivity|]. now rewrite IH, IHl.
  - induction d as [|[k x] d IHd]; [reflexivity|].
    now rewrite key_eqb_refl, IH, IHd.
  - induction l as [|x l IHl]; [reflexivity|]. now rewrite IH, IHl.
Qed.

(** ** Chunks of setup identifiers *)

Lemma np_split_uneven {A} (ary : list A) (sections : Z) :
  0 < sections ->
  Z.of_nat (List.length ary) mod sections <> 0 ->
  np_split ary sections
  = Raise (ValueError "array split does not result in an equal division").
Proof.
  intros Hpos Hmod. unfold np_split.
  destruct (Z.eqb_spec sections 0) as [E|_]; [lia|].
  destruct (Z.eqb_spec (Z.of_nat (List.length ary) mod sections) 0) as [E|_];
    [contradiction | reflexivity].
Qed.

(** C2 at 101 distinct setup identifiers: the join asks for two sections,
    101 does not divide by two, and the split raises before any setup is
    fetched. *)
Theorem uneven_setup_chunks_raise :
  list_evaluations_setups (distinct_setups 101) Fixture.precision_of_task
                          "dataframe" []
  = (Raise (ValueError "array split does not result in an equal division"),
     [HttpGet "evaluation/list/function/precision/limit/10000/offset/0/task/31"]).
Proof. vm_compute. reflexivity. Qed.


Lemma pieces_concat {A} (size count : nat) :
  forall l : list A,
    (List.length l <= size * count)%nat ->
    List.concat (pieces size count l) = l.
Proof.
  induction count as [|count IH]; intros l H; simpl.
  - destruct l; [reflexivity | simpl in H; lia].
  - rewrite IH.
    + apply firstn_skipn.
    + rewrite length_skipn. lia.
Qed.

Lemma pieces_count {A} (size count : nat) :
  forall l : list A, List.length (pieces size count l) = count.
Proof.
  induction count as [|count IH]; intro l; simpl; [reflexivity|].
  now rewrite IH.
Qed.


(** A fetch loop that succeeds has made exactly one [list_setups] call per
    chunk, in order. *)
Lemma fetch_setups_calls (W : Collaborators) (chunks : list (list pyval)) :
  forall setups t r t',
    fetch_setups W chunks setups t = (Ok r, t') ->
    t' = (t ++ map ListSetups chunks)%list.
Proof.
  induction chunks as [|c chunks IH]; intros setups t r t' H; simpl in *.
  - inversion H. now rewrite app_nil_r.
  - unfold bind, list_setups, lift in H.
    destruct (setups_table W t c) as [fr|]; [|discriminate H].
    destruct (drop_column (KStr "flow_id") fr) as [fr'|]; [|discriminate H].
    apply IH in H. rewrite H, <- app_assoc. reflexivity.
Qed.


(** ** The mapping representation of a frame *)

Lemma fold_untouched (c : key) (pairs : list (key * pyval)) :
  forall acc,
    ~ In c (map fst pairs) ->
    dict_get c (fold_left set_pair pairs acc) = dict_get c acc.
Proof.
  induction pairs as [|[k v] pairs IH]; intros acc H; simpl; [reflexivity|].
  simpl in H. rewrite IH by tauto.
  unfold set_pair. simpl. rewrite dict_get_set.
  destruct (key_eqb c k) eqn:E; [|reflexivity].
  apply key_eqb_eq in E. subst. tauto.
Qed.

Lemma row_dict_cell (cols : list key) :
  forall row acc j c v,
    NoDup cols ->
    nth_error cols j = Some c ->
    nth_error row j = Some v ->
    dict_get c (fold_left set_pair (combine cols row) acc) = Some v.
Proof.
  induction cols as [|c0 cols IH]; intros row acc j c v D Hc Hv.
  - destruct j; discriminate Hc.
  - destruct row as [|v0 row]; [destruct j; discriminate Hv|].
    inversion D as [|? ? Hnot D']; subst. simpl.
    destruct j as [|j]; simpl in Hc, Hv.
    + inversion Hc; inversion Hv; subst.
      rewrite fold_untouched.
      * unfold set_pair. simpl. now rewrite dict_get_set, key_eqb_refl.
      * intro I. apply Hnot. clear - I.
        revert row I. induction cols as [|x cols IHc]; intros [|y row] I;
          simpl in *; try contradiction.
        destruct I as [I|I]; [now left | right; eauto].
    + now apply IH with (j := j).
Qed.

Lemma to_dict_rows (cols : list key) (rows : list (list pyval)) :
  forall s i row,
    nth_error rows i = Some row ->
    dict_get (KInt (Z.of_nat (s + i)))
      (map (fun p => (KInt (Z.of_nat (fst p)), PDict (row_dict cols (snd p))))
           (combine (seq s (List.length rows)) rows))
    = Some (PDict (row_dict cols row)).
Proof.
  induction rows as [|r rows IH]; intros s i row H.
  - destruct i; discriminate H.
  - destruct i as [|i]; simpl in *.
    + inversion H; subst. now rewrite Nat.add_0_r, Z.eqb_refl.
    + destruct (Z.eqb_spec (Z.of_nat (s + S i)) (Z.of_nat s)) as [E|_];
        [lia|].
      rewrite <- Nat.add_succ_comm. now apply IH.
Qed.

(** C9. The result the setup join gives in [dataframe] format and the one it
    gives in any other format are the same table, the second converted by
    [to_dict(orient='index')]; for distinct column labels the mapping holds,
    under each row number and column label, the cell the table holds
    there. *)
Theorem dict_orientation_preserves_cells (W : Collaborators) (a : arguments)
    (output_format : string) (t t' : trace) (df : DataFrame) :
  list_evaluations_setups W a "dataframe" t = (Ok (Frame df), t') ->
  output_format <> "dataframe" ->
  list_evaluations_setups W a output_format t
  = (Ok (Mapping (to_dict_index df)), t') /\
  (NoDup (columns df) ->
   forall i row j c v,
     nth_error (data df) i = Some row ->
     nth_error (columns df) j = Some c ->
     nth_error row j = Some v ->
     exists d,
       dict_get (KInt (Z.of_nat i)) (to_dict_index df) = Some (PDict d) /\
       dict_get c d = Some v).
Proof.
  intros H Hne. split.
  - apply String.eqb_neq in Hne.
    unfold list_evaluations_setups, bind in *. rewrite Hne.
    change (String.eqb "dataframe" "dataframe") with true in H.
    destruct (list_evaluations W a "dataframe" t) as [[evals|e] t1];
      [|discriminate H].
    destruct (joined_frame W evals t1) as [[df0|e] t2]; [|discriminate H].
    unfold ret in *. inversion H; subst. reflexivity.
  - intros D i row j c v Hrow Hc Hv.
    exists (row_dict (columns df) row). split.
    + unfold to_dict_index. now apply (to_dict_rows (columns df) (data df) 0).
    + unfold row_dict. now apply row_dict_cell with (j := j).
Qed.

Lemma dict_orientation_preserves_cells_witness :
  exists df d,
    list_evaluations_setups two_runs Fixture.precision "dataframe" []
    = (Ok (Frame df),
       [HttpGet "evaluation/list/function/precision/limit/10/offset/0/task/31";
        ListSetups [PInt 5; PInt 9]]) /\
    list_evaluations_setups two_runs Fixture.precision "dict" []
    = (Ok (Mapping (to_dict_index df)),
       [HttpGet "evaluation/list/function/precision/limit/10/offset/0/task/31";
        ListSetups [PInt 5; PInt 9]]) /\
    dict_get (KInt 1) (to_dict_index df) = Some (PDict d) /\
    dict_get (KStr "setup_id") d = Some (PInt 9).
Proof.
  eexists.
  match goal with
  | |- exists d, ?run = (Ok (Frame ?df), ?t') /\ _ =>
      destruct (@dict_orientation_preserves_cells two_runs Fixture.precision
                  "dict" [] t' df eq_refl ltac:(discriminate)) as [Hd Hc]
  end.
  destruct (Hc ltac:(repeat constructor; simpl; intuition discriminate)
               1%nat _ 2%nat (KStr "setup_id") (PInt 9)
               eq_refl eq_refl eq_refl) as (d & H1 & H2).
  exists d. split; [reflexivity|]. split; [exact Hd|]. split; assumption.
Defined.

(** ** The left join *)

Lemma map_result_nth {A B} (f : A -> result B) (l : list A) :
  forall ys,
    map_result f l = Ok ys ->
    forall i x,
      nth_error l i = Some x ->
      exists y, f x = Ok y /\ nth_error ys i = Some y.
Proof.
  induction l as [|a l IH]; intros ys H i x Hx.
  - destruct i; discriminate Hx.
  - apply map_result_cons in H. destruct H as (y & ys' & Hy & Hys & ->).
    destruct i as [|i]; simpl in Hx.
    + inversion Hx; subst. now exists y.
    + apply (IH _ Hys i x Hx).
Qed.


















(** ** Collections that are not a list of elements *)

(** X1. A collection that is not a dictionary (an empty collection element
    parses to None), has no [oml:evaluation] entry, or holds something other
    than a list there, is an error in every output format. *)
Theorem malformed_collection_raises (W : Collaborators)
    (api_call output_format : string) (t : trace) (xml : string)
    (document : dict) (root : pyval) :
  http_get W t api_call = Ok xml ->
  xml_parse W xml (PTuple [PStr "oml:evaluation"]) = Ok document ->
  dict_get (KStr "oml:evaluations") document = Some root ->
  ((forall d, root <> PDict d) ->
   exists msg,
     __list_evaluations W api_call output_format t
     = (Raise (TypeError msg), (t ++ [HttpGet api_call])%list)) /\
  (forall d,
     root = PDict d -> dict_get (KStr "oml:evaluation") d = None ->
     __list_evaluations W api_call output_format t
     = (Raise (KeyError (KStr "oml:evaluation")),
        (t ++ [HttpGet api_call])%list)) /\
  (forall d v,
     root = PDict d -> dict_get (KStr "oml:evaluation") d = Some v ->
     (forall l, v <> PList l) ->
     __list_evaluations W api_call output_format t
     = (Raise AssertionError, (t ++ [HttpGet api_call])%list)).
Proof.
  intros Hget Hparse Hroot.
  rewrite (list_evaluations_run _ _ _ _ Hget Hparse Hroot).
  split; [|split].
  - intro H. destruct root as [| | | | |l|l|d|l];
      try (eexists; reflexivity).
    now destruct (H d).
  - intros d -> E. cbn [getitem]. now rewrite E.
  - intros d v -> E H. cbn [getitem]. rewrite E. cbn [rbind].
    destruct v; try reflexivity. now destruct (H l).
Qed.

Lemma malformed_collection_raises_witness :
  exists msg,
    __list_evaluations empty_collection "evaluation/list/function/precision"
                       "dict" []
    = (Raise (TypeError msg), [HttpGet "evaluation/list/function/precision"]).
Proof.
  apply (proj1 (@malformed_collection_raises empty_collection
                  "evaluation/list/function/precision" "dict" [] "<xml/>"
                  [(KStr "oml:evaluations", PNone)] PNone
                  eq_refl eq_refl eq_refl)).
  discriminate.
Defined.

(** ** Elements that fail to decode *)

Lemma accumulate_first_failure (W : Collaborators) (output_format : string)
    (good : list pyval) :
  forall records bad rest evals x,
    map_result (decode_evaluation W output_format) good = Ok records ->
    decode_evaluation W output_format bad = Raise x ->
    accumulate W output_format (good ++ bad :: rest)%list evals = Raise x.
Proof.
  induction good as [|e good IH]; intros records bad rest evals x Hg Hb.
  - simpl. now rewrite Hb.
  - apply map_result_cons in Hg. destruct Hg as (r & rs & Hr & Hrs & ->).
    simpl. rewrite Hr. cbn [rbind]. now apply IH with (records := rs).
Qed.

(** X3. The listing fails with the error of the first element that does not
    decode, whatever follows that element and in every output format: no
    partial listing is returned. *)
Theorem first_failing_element_decides (W : Collaborators)
    (api_call output_format : string) (t : trace) (xml : string)
    (document : dict) (root : pyval) (good : list pyval)
    (records : list (Z * pyval)) (bad : pyval) (rest : list pyval) (x : exn) :
  http_get W t api_call = Ok xml ->
  xml_parse W xml (PTuple [PStr "oml:evaluation"]) = Ok document ->
  dict_get (KStr "oml:evaluations") document = Some root ->
  getitem root (KStr "oml:evaluation") = Ok (PList (good ++ bad :: rest)%list) ->
  map_result (decode_evaluation W output_format) good = Ok records ->
  decode_evaluation W output_format bad = Raise x ->
  __list_evaluations W api_call output_format t
  = (Raise x, (t ++ [HttpGet api_call])%list).
Proof.
  intros Hget Hparse Hroot Hel Hg Hb.
  rewrite (list_evaluations_run _ _ _ _ Hget Hparse Hroot), Hel.
  cbn [rbind]. now rewrite (accumulate_first_failure _ _ _ _ _ _ Hg Hb).
Qed.

Lemma first_failing_element_decides_witness :
  __list_evaluations nameless_flow "evaluation/list/function/precision"
                     "dict" []
  = (Raise (KeyError (KStr "oml:flow_name")),
     [HttpGet "evaluation/list/function/precision"]).
Proof.
  destruct (map_result (decode_evaluation nameless_flow "dict")
              [Fixture.element 1 5 []]) as [records|] eqn:E;
    [|vm_compute in E; discriminate E].
  apply (@first_failing_element_decides nameless_flow
           "evaluation/list/function/precision" "dict" [] "<xml/>"
           _ _ [Fixture.element 1 5 []] records _ [PStr "ignored"]
           (KeyError (KStr "oml:flow_name")) eq_refl eq_refl eq_refl eq_refl E).
  reflexivity.
Defined.

Lemma map_result_all {A B} (f : A -> result B) (l : list A) :
  forall ys,
    map_result f l = Ok ys -> Forall (fun x => exists y, f x = Ok y) l.
Proof.
  induction l as [|x l IH]; intros ys H; [constructor|].
  apply map_result_cons in H. destruct H as (y & ys' & Hy & Hys & ->).
  constructor; [now exists y | now apply IH with (ys := ys')].
Qed.

Ltac next_tag H d :=
  match type of H with
  | context [dict_get (KStr ?tag) d] =>
      let E := fresh "Etag" in
      destruct (dict_get (KStr tag) d) eqn:E; [|discriminate H];
      cbn [rbind] in H
  end.

Ltac next_int H W :=
  match type of H with
  | context [py_int W ?x] =>
      let E := fresh "Eint" in
      destruct (py_int W x) eqn:E; [|discriminate H];
      cbn [rbind] in H
  end.

Lemma header_requires_tags (W : Collaborators) (d : dict) (h : header) :
  read_header W (PDict d) = Ok h ->
  Forall (fun tag => dict_mem (KStr tag) d = true) required_tags /\
  Forall (fun tag => exists x z,
            dict_get (KStr tag) d = Some x /\ py_int W x = Ok z)
         integer_tags.
Proof.
  unfold read_header, int_field. cbn [getitem]. intro H.
  do 4 (next_tag H d; next_int H W). do 5 (next_tag H d).
  unfold dict_mem. split.
  - repeat constructor;
      match goal with
      | E : dict_get ?k d = Some _ |- context [dict_get ?k d] =>
          now rewrite E
      end.
  - repeat constructor; eexists; eexists; split; eassumption.
Qed.

Lemma decode_header (W : Collaborators) (output_format : string)
    (eval_ : pyval) (r : Z * pyval) :
  decode_evaluation W output_format eval_ = Ok r ->
  exists h, read_header W eval_ = Ok h.
Proof.
  unfold decode_evaluation. intro H.
  destruct (int_field W eval_ "oml:run_id"); [|discriminate H].
  destruct (read_value W eval_); [|discriminate H].
  destruct (read_values W eval_); [|discriminate H].
  destruct (read_array_data eval_); [|discriminate H].
  destruct (read_header W eval_) as [h|]; [|discriminate H].
  now exists h.
Qed.

(** X4. A listing is returned, in any output format, only when every element
    of the response is a dictionary that carries all nine tags of the record
    header and whose run, task, setup and flow identifiers convert with
    [int]. *)
Theorem listing_requires_header_tags (W : Collaborators)
    (api_call output_format : string) (t t' : trace) (l : listing) :
  __list_evaluations W api_call output_format t = (Ok l, t') ->
  exists xml document root elements,
    http_get W t api_call = Ok xml /\
    xml_parse W xml (PTuple [PStr "oml:evaluation"]) = Ok document /\
    dict_get (KStr "oml:evaluations") document = Some root /\
    getitem root (KStr "oml:evaluation") = Ok (PList elements) /\
    Forall (fun e =>
              exists d,
                e = PDict d /\
                Forall (fun tag => dict_mem (KStr tag) d = true)
                       required_tags /\
                Forall (fun tag => exists x z,
                          dict_get (KStr tag) d = Some x /\ py_int W x = Ok z)
                       integer_tags)
           elements.
Proof.
  intro H.
  destruct (list_evaluations_inversion _ _ _ _ H)
    as (xml & document & root & elements & evals & Hget & Hparse & Hroot
        & Hel & Hacc & _).
  exists xml, document, root, elements.
  repeat (split; [assumption|]).
  destruct (accumulate_decodes _ _ _ _ Hacc) as [records Hdec].
  eapply Forall_impl; [|apply (map_result_all _ _ Hdec)].
  intros e [r Hr].
  destruct (decode_needs_dict _ _ _ Hr) as [d ->]. exists d.
  split; [reflexivity|].
  destruct (decode_header _ _ _ Hr) as [h Hh].
  now apply header_requires_tags with (h := h).
Qed.

Lemma listing_requires_header_tags_witness :
  exists l t',
    __list_evaluations two_runs "evaluation/list/function/precision"
                       "dataframe" [] = (Ok l, t') /\
    exists xml document root elements,
      http_get two_runs [] "evaluation/list/function/precision" = Ok xml /\
      xml_parse two_runs xml (PTuple [PStr "oml:evaluation"]) = Ok document /\
      dict_get (KStr "oml:evaluations") document = Some root /\
      getitem root (KStr "oml:evaluation") = Ok (PList elements) /\
      Forall (fun e =>
                exists d,
                  e = PDict d /\
                  Forall (fun tag => dict_mem (KStr tag) d = true)
                         required_tags /\
                  Forall (fun tag => exists x z,
                            dict_get (KStr tag) d = Some x /\
                            py_int two_runs x = Ok z)
                         integer_tags)
             elements.
Proof.
  eexists. eexists. split; [vm_compute; reflexivity|].
  eapply (@listing_requires_header_tags two_runs
            "evaluation/list/function/precision" "dataframe" []).
  reflexivity.
Defined.

(** ** The output formats carry the same records *)

Lemma decode_object_as_dict (W : Collaborators) (output_format : string)
    (eval_ : pyval) (run_id : Z) (record : pyval) :
  String.eqb output_format "object" = false ->
  decode_evaluation W "object" eval_ = Ok (run_id, record) ->
  decode_evaluation W output_format eval_ = Ok (run_id, as_dict record).
Proof.
  unfold decode_evaluation. intros F H. rewrite F.
  change (String.eqb "object" "object") with true in H.
  destruct (int_field W eval_ "oml:run_id"); [|discriminate H].
  destruct (read_value W eval_); [|discriminate H].
  destruct (read_values W eval_); [|discriminate H].
  destruct (read_array_data eval_); [|discriminate H].
  destruct (read_header W eval_) as [h|]; [|discriminate H].
  cbn [rbind] in *. inversion H. reflexivity.
Qed.

Lemma decode_same_outside_object (W : Collaborators) (f1 f2 : string)
    (eval_ : pyval) :
  String.eqb f1 "object" = false ->
  String.eqb f2 "object" = false ->
  decode_evaluation W f1 eval_ = decode_evaluation W f2 eval_.
Proof.
  unfold decode_evaluation. intros F1 F2. now rewrite F1, F2.
Qed.

Lemma dict_set_as_dict (k : key) (v : pyval) (d : dict) :
  map entry_as_dict (dict_set k v d)
  = dict_set k (as_dict v) (map entry_as_dict d).
Proof.
  induction d as [|[k' v'] d IH]; simpl; [reflexivity|].
  destruct (key_eqb k k'); simpl; [reflexivity|]. now rewrite IH.
Qed.

Lemma accumulate_as_dict (W : Collaborators) (output_format : string)
    (elements : list pyval) :
  String.eqb output_format "object" = false ->
  forall evals d,
    accumulate W "object" elements evals = Ok d ->
    accumulate W output_format elements (map entry_as_dict evals)
    = Ok (map entry_as_dict d).
Proof.
  intro F. induction elements as [|e elements IH]; intros evals d H.
  - inversion H. reflexivity.
  - simpl in *.
    destruct (decode_evaluation W "object" e) as [[rid r]|] eqn:E;
      [|discriminate H].
    rewrite (@decode_object_as_dict W output_format e rid r F E). cbn [rbind fst snd] in *.
    rewrite <- dict_set_as_dict. now apply IH.
Qed.

Lemma accumulate_same_outside_object (W : Collaborators) (f1 f2 : string)
    (elements : list pyval) :
  String.eqb f1 "object" = false ->
  String.eqb f2 "object" = false ->
  forall evals,
    accumulate W f1 elements evals = accumulate W f2 elements evals.
Proof.
  intros F1 F2. induction elements as [|e elements IH]; intro evals;
    [reflexivity|].
  simpl. rewrite (@decode_same_outside_object W f1 f2 e F1 F2).
  destruct (decode_evaluation W f2 e); [|reflexivity].
  cbn [rbind]. apply IH.
Qed.

(** X5. The mapping of objects and the mapping of dictionaries hold the same
    records: when the [object] format returns a mapping, every format other
    than [object] and [dataframe] returns, after the same request, the
    mapping with the same keys in the same order in which each object is
    replaced by the dictionary of its twelve constructor arguments under the
    field names. *)
Theorem object_and_dict_formats_agree (W : Collaborators)
    (api_call output_format : string) (t t' : trace) (l : listing) :
  output_format <> "object" ->
  output_format <> "dataframe" ->
  __list_evaluations W api_call "object" t = (Ok l, t') ->
  exists d,
    l = Mapping d /\
    __list_evaluations W api_call output_format t
    = (Ok (Mapping (map entry_as_dict d)), t').
Proof.
  intros Fo Fd H.
  apply String.eqb_neq in Fo. apply String.eqb_neq in Fd.
  destruct (list_evaluations_inversion _ _ _ _ H)
    as (xml & document & root & elements & evals & Hget & Hparse & Hroot
        & Hel & Hacc & -> & Hl).
  destruct Hl as [[_ ->]|[F _]]; [|discriminate F].
  exists evals. split; [reflexivity|].
  rewrite (list_evaluations_run _ _ _ _ Hget Hparse Hroot), Hel.
  cbn [rbind].
  pose proof (@accumulate_as_dict W output_format elements Fo [] evals Hacc)
    as A.
  cbn [map] in A. rewrite A.
  cbn [rbind]. unfold project. now rewrite Fd.
Qed.

Lemma object_and_dict_formats_agree_witness :
  exists d,
    __list_evaluations two_runs "evaluation/list/function/precision"
                       "object" []
    = (Ok (Mapping d), [HttpGet "evaluation/list/function/precision"]) /\
    __list_evaluations two_runs "evaluation/list/function/precision" "dict" []
    = (Ok (Mapping (map entry_as_dict d)),
       [HttpGet "evaluation/list/function/precision"]).
Proof.
  destruct (@object_and_dict_formats_agree two_runs
              "evaluation/list/function/precision" "dict" [] _ _
              ltac:(discriminate) ltac:(discriminate) eq_refl)
    as (d & Hl & Hrun).
  exists d. split; [|exact Hrun].
  rewrite <- Hl. reflexivity.
Defined.

(** X6. The frame and the mapping of dictionaries hold the same records: a
    frame returned in [dataframe] format has the twelve evaluation columns
    and as many rows as the mapping the [dict] format returns after the same
    request has entries; row by row, in order, it has twelve cells, each
    built from the record's field under the column name: the field itself,
    or NaN for None, or the float of an integer, as the conversion of its
    column decides; the four identifier cells are the fields themselves. *)
Theorem dataframe_and_dict_formats_agree (W : Collaborators)
    (api_call : string) (t t' : trace) (l : listing) :
  __list_evaluations W api_call "dataframe" t = (Ok l, t') ->
  exists df evals,
    l = Frame df /\
    __list_evaluations W api_call "dict" t = (Ok (Mapping evals), t') /\
    columns df = evaluation_columns /\
    List.length (data df) = List.length evals /\
    forall i record,
      nth_error (dict_values evals) i = Some record ->
      exists row,
        nth_error (data df) i = Some row /\
        List.length row = 12%nat /\
        forall j c,
          nth_error evaluation_columns j = Some c ->
          exists v cell,
            getitem record c = Ok v /\ nth_error row j = Some cell /\
            coerced W v cell /\ ((j < 4)%nat -> cell = v).
Proof.
  intro H.
  destruct (list_evaluations_inversion _ _ _ _ H)
    as (xml & document & root & elements & evals & Hget & Hparse & Hroot
        & Hel & Hacc & -> & Hl).
  destruct Hl as [[F _]|[_ (first & cols & Hfirst & Hcols & ->)]];
    [discriminate F|].
  destruct (@returned_frame W elements evals first cols Hacc Hfirst Hcols)
    as [HD ->].
  exists (from_records W (dict_values evals) evaluation_columns), evals.
  split; [reflexivity|]. split; [|split; [reflexivity|split]].
  - rewrite (list_evaluations_run _ _ _ _ Hget Hparse Hroot), Hel.
    cbn [rbind].
    rewrite (@accumulate_same_outside_object W "dict" "dataframe" elements
               eq_refl eq_refl), Hacc.
    reflexivity.
  - rewrite from_records_length. unfold dict_values. apply length_map.
  - intros i record Hr.
    exact (@frame_row_of_record W (dict_values evals) i record HD Hr).
Qed.

Lemma dataframe_and_dict_formats_agree_witness :
  exists df evals,
    __list_evaluations two_runs "evaluation/list/function/precision"
                       "dataframe" []
    = (Ok (Frame df), [HttpGet "evaluation/list/function/precision"]) /\
    __list_evaluations two_runs "evaluation/list/function/precision" "dict" []
    = (Ok (Mapping evals), [HttpGet "evaluation/list/function/precision"]) /\
    columns df = evaluation_columns /\
    List.length (data df) = List.length evals /\
    option_map (fun row => nth 9 row PNone) (nth_error (data df) 1)
    = Some NaN /\
    option_map (fun r => getitem r (KStr "value"))
               (nth_error (dict_values evals) 1)
    = Some (Ok PNone).
Proof.
  edestruct (@dataframe_and_dict_formats_agree two_runs
               "evaluation/list/function/precision" [])
    as (df & evals & Hl & Hrun & Hc & Hn & _).
  - vm_compute. reflexivity.
  - inversion Hl; subst df. clear Hl.
    exists
      (match fst (__list_evaluations two_runs
                    "evaluation/list/function/precision" "dataframe" [])
       with Ok (Frame df) => df | _ => empty_frame end), evals.
    split; [vm_compute; reflexivity|]. split; [exact Hrun|].
    vm_compute in Hrun. inversion Hrun; subst evals. clear Hrun.
    repeat split; vm_compute; reflexivity.
Defined.

(** ** The keys of the accumulated mapping *)

Lemma existsb_Zeqb_false (x : Z) (seen : list Z) :
  existsb (Z.eqb x) seen = false -> ~ In x seen.
Proof.
  intros E I. assert (T : existsb (Z.eqb x) seen = true).
  { apply existsb_exists. exists x. split; [assumption | apply Z.eqb_refl]. }
  congruence.
Qed.

Lemma first_seen_distinct (ids : list Z) :
  forall seen, NoDup seen -> NoDup (seen ++ first_seen seen ids)%list.
Proof.
  induction ids as [|x ids IH]; intros seen D; simpl.
  - now rewrite app_nil_r.
  - destruct (existsb (Z.eqb x) seen) eqn:E; [now apply IH|].
    change (x :: first_seen (seen ++ [x]) ids)%list
      with ([x] ++ first_seen (seen ++ [x]) ids)%list.
    rewrite app_assoc. apply IH.
    apply NoDup_app; [assumption | repeat constructor; intros [] |].
    intros y Hy [<-|[]]. now apply (existsb_Zeqb_false _ _ E).
Qed.

Lemma first_seen_length (ids : list Z) :
  forall seen, (List.length (first_seen seen ids) <= List.length ids)%nat.
Proof.
  induction ids as [|x ids IH]; intro seen; simpl; [lia|].
  destruct (existsb (Z.eqb x) seen); simpl.
  - specialize (IH seen). lia.
  - specialize (IH (seen ++ [x])%list). lia.
Qed.

Lemma KInt_distinct (l : list Z) : NoDup l -> NoDup (map KInt l).
Proof.
  induction 1 as [|x l Hx D IH]; simpl; constructor; [|assumption].
  intro I. apply in_map_iff in I. destruct I as (y & E & I).
  inversion E; subst. contradiction.
Qed.

(** X7. The mapping the loop builds has pairwise distinct keys, all of them
    integers, and at most as many entries as the response has elements;
    it is empty only for an empty response. *)
Theorem accumulated_keys_distinct (W : Collaborators) (output_format : string)
    (elements : list pyval) (evals : dict) :
  accumulate W output_format elements [] = Ok evals ->
  NoDup (dict_keys evals) /\
  Forall (fun k => exists z, k = KInt z) (dict_keys evals) /\
  (List.length evals <= List.length elements)%nat /\
  (evals = [] -> elements = []).
Proof.
  intro H.
  destruct (accumulate_decodes _ _ _ _ H) as [records Hdec].
  rewrite (accumulate_stores _ _ _ [] Hdec) in H.
  inversion H; subst evals; clear H.
  pose proof (store_all_keys records [] [] eq_refl) as K. cbn [app] in K.
  split; [|split; [|split]].
  - rewrite K. apply KInt_distinct.
    exact (@first_seen_distinct (map fst records) [] (NoDup_nil Z)).
  - rewrite K. apply Forall_map. apply Forall_forall. intros z _.
    now exists z.
  - assert (L : List.length (store_all records [])
                = List.length (dict_keys (store_all records [])))
      by (unfold dict_keys; now rewrite length_map).
    rewrite L, K, length_map.
    pose proof (first_seen_length (map fst records) []) as B.
    rewrite length_map in B.
    rewrite (map_result_length _ _ Hdec) in B. exact B.
  - intro E. apply map_result_length in Hdec.
    destruct records as [|r records].
    + destruct elements; [reflexivity | discriminate Hdec].
    + exfalso. revert E. unfold store_all. cbn [fold_left].
      apply store_all_nonempty. apply dict_set_nonempty.
Qed.

Lemma accumulated_keys_distinct_witness :
  exists evals,
    accumulate two_runs "dict" repeated_run [] = Ok evals /\
    NoDup (dict_keys evals) /\
    Forall (fun k => exists z, k = KInt z) (dict_keys evals) /\
    (List.length evals <= 3)%nat /\
    (evals = [] -> repeated_run = []).
Proof.
  destruct (accumulate two_runs "dict" repeated_run []) as [evals|] eqn:E;
    [|vm_compute in E; discriminate E].
  exists evals. split; [reflexivity|].
  exact (@accumulated_keys_distinct two_runs "dict" repeated_run evals E).
Defined.

(** ** The path without filters *)

Lemma api_call_path (W : Collaborators) (function : string)
    (id task setup flow uploader : option (list Z))
    (sort_order : option string) (kwargs : list (string * pyval)) :
  api_call_of W function id task setup flow uploader sort_order kwargs
  = path_shape W function id task setup flow uploader sort_order kwargs.
Proof.
  unfold api_call_of, path_shape.
  rewrite keyword_segments, !add_ids_segment, !concat_all_app.
  destruct sort_order as [o|]; simpl.
  - unfold segment. now rewrite ?append_assoc, ?append_nil_r.
  - now rewrite ?append_assoc, ?append_nil_r.
Qed.

Lemma append_cancel_l (a x y : string) :
  (a ++ x)%string = (a ++ y)%string -> x = y.
Proof.
  induction a as [|c a IH]; simpl; intro H; [assumption|].
  inversion H. now apply IH.
Qed.

Lemma append_empty (a b : string) :
  (a ++ b)%string = EmptyString -> a = EmptyString /\ b = EmptyString.
Proof.
  destruct a; simpl; intro H; [now split | discriminate H].
Qed.

Lemma id_segment_concat_empty (name : string) (ids : option (list Z)) :
  concat_all (id_segment name ids) = EmptyString -> ids = None.
Proof.
  destruct ids as [l|]; [|reflexivity]. simpl. discriminate.
Qed.

(** X8. The path is the bare [evaluation/list/function/<metric>] exactly when
    no filter is given: no keyword filter, no identifier list (an empty list
    still adds its segment) and no sort order. *)
Theorem bare_path_iff_no_filter (W : Collaborators) (function : string)
    (id task setup flow uploader : option (list Z))
    (sort_order : option string) (kwargs : list (string * pyval)) :
  api_call_of W function id task setup flow uploader sort_order kwargs
  = ("evaluation/list/function/" ++ function)%string
  <->
  kwargs = [] /\ id = None /\ task = None /\ setup = None /\ flow = None /\
  uploader = None /\ sort_order = None.
Proof.
  split.
  - rewrite api_call_path. unfold path_shape. intro H.
    rewrite <- (append_nil_r ("evaluation/list/function/" ++ function)) in H.
    rewrite append_assoc in H.
    apply append_cancel_l in H. apply append_cancel_l in H.
    rewrite !concat_all_app in H.
    apply append_empty in H. destruct H as [Hk H].
    apply append_empty in H. destruct H as [Hi H].
    apply append_empty in H. destruct H as [Ht H].
    apply append_empty in H. destruct H as [Hs H].
    apply append_empty in H. destruct H as [Hf H].
    apply append_empty in H. destruct H as [Hu Ho].
    repeat split; try (eapply id_segment_concat_empty; eassumption).
    + destruct kwargs; [reflexivity | discriminate Hk].
    + destruct sort_order; [discriminate Ho | reflexivity].
  - intros (-> & -> & -> & -> & -> & -> & ->). reflexivity.
Qed.

(** ** The list of measures *)

(** X9. [list_evaluation_measures] makes one request, to
    [evaluationmeasure/list], whatever the outcome.  It returns a value
    exactly when the parsed document has the collection tag and the
    [oml:measure] entry of the first [oml:measures] element is a list, and
    that list is the value; when the entry is there and is not a list, a type
    error is raised. *)
Theorem measures_are_the_first_list (W : Collaborators) (t : trace) :
  snd (list_evaluation_measures W t)
  = (t ++ [HttpGet "evaluationmeasure/list"])%list /\
  (forall v,
     fst (list_evaluation_measures W t) = Ok v <->
     exists xml qualities root measures first l,
       http_get W t "evaluationmeasure/list" = Ok xml /\
       xml_parse W xml (PStr "oml:measures") = Ok qualities /\
       dict_get (KStr "oml:evaluation_measures") qualities = Some root /\
       getitem root (KStr "oml:measures") = Ok measures /\
       getitem measures (KInt 0) = Ok first /\
       getitem first (KStr "oml:measure") = Ok (PList l) /\
       v = PList l) /\
  (forall xml qualities root measures first m,
     http_get W t "evaluationmeasure/list" = Ok xml ->
     xml_parse W xml (PStr "oml:measures") = Ok qualities ->
     dict_get (KStr "oml:evaluation_measures") qualities = Some root ->
     getitem root (KStr "oml:measures") = Ok measures ->
     getitem measures (KInt 0) = Ok first ->
     getitem first (KStr "oml:measure") = Ok m ->
     (forall l, m <> PList l) ->
     exists msg, fst (list_evaluation_measures W t) = Raise (TypeError msg)).
Proof.
  unfold list_evaluation_measures, bind, _perform_api_call, lift.
  split; [|split].
  - destruct (http_get W t _) as [xml|]; [|reflexivity].
    now destruct (xml_parse W xml _).
  - intro v. split.
    + intro H.
      destruct (http_get W t _) as [xml|] eqn:Hget; [|discriminate H].
      destruct (xml_parse W xml _) as [q|] eqn:Hparse; [|discriminate H].
      cbn [fst] in H. unfold measures_of_document in H.
      destruct (dict_mem (KStr "oml:evaluation_measures") q) eqn:Hmem;
        [|discriminate H].
      apply dict_mem_true in Hmem. destruct Hmem as [root Hroot].
      cbn [negb getitem] in H. rewrite Hroot in H. cbn [rbind] in H.
      destruct (getitem root (KStr "oml:measures")) as [ms|] eqn:Hms;
        [|discriminate H].
      cbn [rbind] in H.
      destruct (getitem ms (KInt 0)) as [first|] eqn:Hfirst;
        [|discriminate H].
      cbn [rbind] in H.
      destruct (getitem first (KStr "oml:measure")) as [m|] eqn:Hm;
        [|discriminate H].
      cbn [rbind] in H.
      destruct m as [| | | | |l|l|d|l]; try discriminate H.
      inversion H; subst v.
      now exists xml, q, root, ms, first, l.
    + intros (xml & q & root & ms & first & l & Hget & Hparse & Hroot & Hms
              & Hfirst & Hm & ->).
      rewrite Hget, Hparse. cbn [fst]. unfold measures_of_document.
      assert (Hmem : dict_mem (KStr "oml:evaluation_measures") q = true).
      { apply dict_mem_true. now exists root. }
      rewrite Hmem. cbn [negb getitem]. rewrite Hroot. cbn [rbind].
      rewrite Hms. cbn [rbind]. rewrite Hfirst. cbn [rbind].
      now rewrite Hm.
  - intros xml q root ms first m Hget Hparse Hroot Hms Hfirst Hm Hnot.
    rewrite Hget, Hparse. cbn [fst]. unfold measures_of_document.
    assert (Hmem : dict_mem (KStr "oml:evaluation_measures") q = true).
    { apply dict_mem_true. now exists root. }
    rewrite Hmem. cbn [negb getitem]. rewrite Hroot. cbn [rbind].
    rewrite Hms. cbn [rbind]. rewrite Hfirst. cbn [rbind].
    rewrite Hm. cbn [rbind].
    destruct m; try (eexists; reflexivity). now destruct (Hnot l).
Qed.

Lemma measures_are_the_first_list_witness :
  list_evaluation_measures two_measures []
  = (Ok (PList [PStr "area_under_roc_curve"; PStr "precision"]),
     [HttpGet "evaluationmeasure/list"]).
Proof.
  destruct (@measures_are_the_first_list two_measures []) as (Ht & Hv & _).
  assert (F : fst (list_evaluation_measures two_measures [])
              = Ok (PList [PStr "area_under_roc_curve"; PStr "precision"])).
  { apply Hv. exists "<xml/>", measures_document.
    eexists. eexists. eexists. eexists.
    repeat (split; [reflexivity|]). reflexivity. }
  rewrite (surjective_pairing (list_evaluation_measures two_measures [])).
  rewrite F, Ht. reflexivity.
Defined.

(** ** Flattened parameters *)

(** X10. The parameters of a setup are flattened in the order of the mapping,
    one (name, value) pair per parameter, read from the parameter's
    [parameter_name] and [value] entries; None gives the empty list, and any
    other value that is not a mapping, the NaN of a missing cell included,
    is an attribute error. *)
Theorem parameters_flatten_in_order :
  (forall d v,
     flatten_parameters (PDict d) = Ok v ->
     exists l,
       v = PList l /\
       List.length l = List.length d /\
       forall i param,
         nth_error (dict_values d) i = Some param ->
         exists name value,
           getitem param (KStr "parameter_name") = Ok name /\
           getitem param (KStr "value") = Ok value /\
           nth_error l i = Some (PTuple [name; value])) /\
  (forall v,
     v <> PNone -> (forall d, v <> PDict d) ->
     flatten_parameters v = Raise AttributeError) /\
  flatten_parameters NaN = Raise AttributeError.
Proof.
  split; [|split].
  - intros d v H. unfold flatten_parameters in H. cbn [is_none negb] in H.
    destruct (map_result parameter_pair (dict_values d)) as [l|] eqn:E;
      [|discriminate H].
    inversion H; subst v. exists l. split; [reflexivity|]. split.
    + rewrite (map_result_length _ _ E). unfold dict_values.
      apply length_map.
    + intros i param Hp.
      destruct (map_result_nth _ _ E i Hp) as (y & Hy & Hn).
      unfold parameter_pair in Hy.
      destruct (getitem param (KStr "parameter_name")) as [name|];
        [|discriminate Hy].
      destruct (getitem param (KStr "value")) as [value|];
        [|discriminate Hy].
      inversion Hy; subst y. now exists name, value.
  - intros v Hn Hd.
    destruct v; try reflexivity; [now destruct Hn | now destruct (Hd d)].
  - reflexivity.
Qed.

Lemma parameters_flatten_in_order_witness :
  exists l,
    flatten_parameters
      (PDict [(KInt 101, Fixture.parameter "C" "0.25");
              (KInt 102, Fixture.parameter "M" "2")])
    = Ok (PList l) /\
    List.length l = 2%nat /\
    nth_error l 1 = Some (PTuple [PStr "M"; PStr "2"]).
Proof.
  destruct (proj1 parameters_flatten_in_order
              [(KInt 101, Fixture.parameter "C" "0.25");
               (KInt 102, Fixture.parameter "M" "2")] _ eq_refl)
    as (l & Hv & Hl & Hn).
  exists l. split; [now rewrite <- Hv|]. split; [exact Hl|].
  destruct (Hn 1%nat (Fixture.parameter "M" "2") eq_refl)
    as (name & value & H1 & H2 & H3).
  inversion H1; inversion H2; subst. exact H3.
Defined.

(** ** The batches of the setup join *)

Lemma existsb_pyval_In (x : pyval) (l : list pyval) :
  existsb (pyval_eqb x) l = true <-> In x l.
Proof.
  rewrite existsb_exists. split.
  - intros (y & I & E). apply pyval_eqb_eq in E. now subst.
  - intro I. exists x. split; [assumption | apply pyval_eqb_refl].
Qed.

Lemma unique_from_spec (l : list pyval) :
  forall seen,
    NoDup (unique_from seen l) /\
    forall x, In x (unique_from seen l) <-> In x l /\ ~ In x seen.
Proof.
  induction l as [|a l IH]; intro seen; simpl.
  - split; [constructor | intro x; tauto].
  - destruct (existsb (pyval_eqb a) seen) eqn:E.
    + apply existsb_pyval_In in E. destruct (IH seen) as [D S].
      split; [assumption|]. intro x. rewrite S. split.
      * tauto.
      * intros [[<-|I] N]; [contradiction | tauto].
    + assert (Na : ~ In a seen).
      { intro I. apply existsb_pyval_In in I. congruence. }
      destruct (IH (a :: seen)) as [D S]. split.
      * constructor; [|assumption]. rewrite S. simpl. tauto.
      * intro x. simpl. rewrite S. simpl. split.
        -- intros [<-|[I N]]; tauto.
        -- intros [[<-|I] N]; [now left|].
           destruct (pyval_eqb a x) eqn:Eax.
           ++ apply pyval_eqb_eq in Eax. now left.
           ++ right. split; [assumption|]. intros [<-|I']; [|contradiction].
              now rewrite pyval_eqb_refl in Eax.
Qed.

Lemma pieces_exact {A} (size count : nat) :
  forall l : list A,
    List.length l = (size * count)%nat ->
    Forall (fun c => List.length c = size) (pieces size count l).
Proof.
  induction count as [|count IH]; intros l H; simpl; constructor.
  - rewrite length_firstn. nia.
  - apply IH. rewrite length_skipn. nia.
Qed.

(** A split that succeeds gives equal chunks of between 1 and 100
    identifiers. *)
Lemma split_chunks_equal {A} (ids : list A) (chunks : list (list A)) :
  ids <> [] ->
  np_split ids (sections_for (Z.of_nat (List.length ids))) = Ok chunks ->
  exists size,
    (1 <= size <= 100)%nat /\
    List.concat chunks = ids /\
    Forall (fun c => List.length c = size) chunks /\
    (List.length chunks * size = List.length ids)%nat.
Proof.
  intro Hne. unfold np_split, sections_for, N_setups.
  set (n := Z.of_nat (List.length ids)).
  set (k := (n - 1) / 100 + 1).
  assert (Hn : 1 <= n).
  { unfold n. destruct ids; [contradiction | simpl List.length; lia]. }
  assert (Hk : n <= 100 * k /\ 1 <= k <= n).
  { unfold k. pose proof (Z.div_mod (n - 1) 100 ltac:(lia)) as D.
    pose proof (Z.mod_pos_bound (n - 1) 100 ltac:(lia)) as B.
    assert (0 <= (n - 1) / 100) by (apply Z.div_pos; lia).
    lia. }
  destruct (Z.eqb_spec k 0) as [|K0]; [discriminate|].
  destruct (Z.eqb_spec (n mod k) 0) as [M|]; [|discriminate].
  destruct (Z.leb_spec k 0) as [|Kpos]; [discriminate|].
  intro H. inversion H; subst chunks; clear H.
  assert (Hdiv : n = k * (n / k)).
  { pose proof (Z.div_mod n k K0). lia. }
  assert (Hq : 1 <= n / k <= 100).
  { split; [apply Z.div_le_lower_bound; lia|].
    apply Z.div_le_upper_bound; lia. }
  assert (Hlen : List.length ids = (Z.to_nat (n / k) * Z.to_nat k)%nat).
  { apply Nat2Z.inj. rewrite Nat2Z.inj_mul, !Z2Nat.id by lia. fold n. lia. }
  exists (Z.to_nat (n / k)). split; [lia|]. split; [|split].
  - apply pieces_concat. lia.
  - now apply pieces_exact.
  - rewrite pieces_count. lia.
Qed.

Lemma unique_nonempty (x : pyval) (l : list pyval) : unique (x :: l) <> [].
Proof. unfold unique. simpl. discriminate. Qed.

(** What a successful setup join fetched. *)
Lemma setup_join_collects (W : Collaborators) (a : arguments)
    (output_format : string) (t t1 t' : trace) (evals : DataFrame)
    (l : listing) :
  list_evaluations W a "dataframe" t = (Ok (Frame evals), t1) ->
  data evals <> [] ->
  list_evaluations_setups W a output_format t = (Ok l, t') ->
  exists setups, collect_setups W evals t1 = (Ok setups, t').
Proof.
  intros Hl Hne H. unfold list_evaluations_setups, bind in H.
  rewrite Hl in H. unfold joined_frame, listing_len in H.
  assert (E : Nat.eqb (List.length (data evals)) 0 = false)
    by (destruct (data evals); [contradiction | reflexivity]).
  rewrite E in H. cbn [negb] in H. unfold join_setups, bind, lift in H.
  destruct (collect_setups W evals t1) as [[setups|] t2]; [|discriminate H].
  exists setups.
  destruct (merge_left evals setups (KStr "setup_id")); [|discriminate H].
  destruct (String.eqb output_format "dataframe"); unfold ret in H;
    now inversion H.
Qed.

(** X11. When the setup join returns a result for a non-empty evaluation
    table, the setup fetches it made are one call per chunk of the
    deduplicated identifiers of the [setup_id] column: the chunks have one
    common size between 1 and 100, no identifier is requested twice, and
    exactly the identifiers of the column are requested. *)
Theorem setups_fetched_once_in_equal_batches (W : Collaborators)
    (a : arguments) (output_format : string) (t t1 t' : trace)
    (evals : DataFrame) (l : listing) :
  list_evaluations W a "dataframe" t = (Ok (Frame evals), t1) ->
  data evals <> [] ->
  list_evaluations_setups W a output_format t = (Ok l, t') ->
  exists ids chunks size,
    column evals (KStr "setup_id") = Ok ids /\
    t' = (t1 ++ map ListSetups chunks)%list /\
    List.concat chunks = unique ids /\
    NoDup (List.concat chunks) /\
    (forall x, In x (List.concat chunks) <-> In x ids) /\
    (1 <= size <= 100)%nat /\
    Forall (fun c => List.length c = size) chunks.
Proof.
  intros Hl Hne H.
  destruct (@setup_join_collects W a output_format t t1 t' evals l Hl Hne H)
    as [setups Hc].
  unfold collect_setups, bind, lift, ret in Hc.
  destruct (column evals (KStr "setup_id")) as [ids|] eqn:Hcol;
    [|discriminate Hc].
  destruct (np_split (unique ids) _) as [chunks|] eqn:S; [|discriminate Hc].
  destruct (fetch_setups W chunks empty_frame t1) as [[fetched|] t2] eqn:F;
    [|discriminate Hc].
  destruct (column fetched (KStr "parameters")) as [col|]; [|discriminate Hc].
  destruct (map_result flatten_parameters col) as [ps|]; [|discriminate Hc].
  inversion Hc; subst. clear Hc.
  apply fetch_setups_calls in F.
  assert (Hu : unique ids <> []).
  { unfold column in Hcol.
    destruct (col_index (KStr "setup_id") (columns evals)); [|discriminate].
    inversion Hcol. destruct (data evals); [contradiction|].
    apply unique_nonempty. }
  destruct (@split_chunks_equal _ (unique ids) chunks Hu S)
    as (size & Hs & Hcat & Heq & _).
  destruct (unique_from_spec ids []) as [D I].
  exists ids, chunks, size.
  split; [reflexivity|]. split; [exact F|]. split; [exact Hcat|].
  rewrite Hcat. split; [exact D|]. split; [|now split].
  intro x. unfold unique. rewrite I. simpl. tauto.
Qed.

Lemma setups_fetched_once_in_equal_batches_witness :
  exists ids chunks size,
    column
      (match fst (list_evaluations two_runs Fixture.precision "dataframe" [])
       with Ok (Frame df) => df | _ => empty_frame end)
      (KStr "setup_id") = Ok ids /\
    [HttpGet "evaluation/list/function/precision/limit/10/offset/0/task/31";
     ListSetups [PInt 5; PInt 9]]
    = ([HttpGet "evaluation/list/function/precision/limit/10/offset/0/task/31"]
       ++ map ListSetups chunks)%list /\
    List.concat chunks = unique ids /\
    NoDup (List.concat chunks) /\
    (forall x, In x (List.concat chunks) <-> In x ids) /\
    (1 <= size <= 100)%nat /\
    Forall (fun c => List.length c = size) chunks.
Proof.
  eapply (@setups_fetched_once_in_equal_batches two_runs Fixture.precision
            "dict" []).
  - vm_compute. reflexivity.
  - vm_compute. discriminate.
  - vm_compute. reflexivity.
Defined.

(** The setup join on a non-empty evaluation table, up to the split. *)
Lemma setup_join_run (W : Collaborators) (a : arguments)
    (output_format : string) (t t1 : trace) (evals : DataFrame) :
  list_evaluations W a "dataframe" t = (Ok (Frame evals), t1) ->
  data evals <> [] ->
  list_evaluations_setups W a output_format t
  = bind (join_setups W evals)
         (fun df => if String.eqb output_format "dataframe"
                    then ret (Frame df)
                    else ret (Mapping (to_dict_index df))) t1.
Proof.
  intros Hl Hne. unfold list_evaluations_setups.
  unfold bind at 1. rewrite Hl.
  unfold joined_frame, listing_len.
  assert (E : Nat.eqb (List.length (data evals)) 0 = false)
    by (destruct (data evals); [contradiction | reflexivity]).
  now rewrite E.
Qed.

(** X12. When the number of distinct setup identifiers does not divide by
    the number of sections the join asks for, the join raises the value error
    of [np.split] right after the evaluation fetch, in every output format,
    and fetches no setup. *)
Theorem uneven_count_raises_before_fetch (W : Collaborators) (a : arguments)
    (output_format : string) (t t1 : trace) (evals : DataFrame)
    (ids : list pyval) :
  list_evaluations W a "dataframe" t = (Ok (Frame evals), t1) ->
  data evals <> [] ->
  column evals (KStr "setup_id") = Ok ids ->
  Z.of_nat (List.length (unique ids))
    mod sections_for (Z.of_nat (List.length (unique ids))) <> 0 ->
  list_evaluations_setups W a output_format t
  = (Raise (ValueError "array split does not result in an equal division"),
     t1).
Proof.
  intros Hl Hne Hcol Hmod.
  rewrite (@setup_join_run W a output_format t t1 evals Hl Hne).
  unfold bind, join_setups, collect_setups, bind, lift. rewrite Hcol.
  fold (sections_for (Z.of_nat (List.length (unique ids)))).
  rewrite np_split_uneven; [reflexivity | | assumption].
  unfold sections_for, N_setups in *.
  set (n := Z.of_nat (List.length (unique ids))) in *.
  assert (0 <= n) by (unfold n; lia).
  assert (-1 <= (n - 1) / 100) by (apply Z.div_le_lower_bound; lia).
  destruct (Z.eq_dec ((n - 1) / 100 + 1) 0) as [E|E]; [|lia].
  exfalso. apply Hmod. rewrite E.
  assert (n = 0); [|subst n; now rewrite H1].
  pose proof (Z.div_mod (n - 1) 100 ltac:(lia)).
  pose proof (Z.mod_pos_bound (n - 1) 100 ltac:(lia)). lia.
Qed.

Lemma uneven_count_raises_before_fetch_witness :
  list_evaluations_setups (distinct_setups 101) Fixture.precision_of_task
                          "dict" []
  = (Raise (ValueError "array split does not result in an equal division"),
     [HttpGet
        "evaluation/list/function/precision/limit/10000/offset/0/task/31"]).
Proof.
  eapply (@uneven_count_raises_before_fetch (distinct_setups 101)
            Fixture.precision_of_task "dict" []).
  - vm_compute. reflexivity.
  - vm_compute. discriminate.
  - vm_compute. reflexivity.
  - vm_compute. discriminate.
Defined.

(** X13. With at most 100 distinct setup identifiers the join makes exactly
    one setup fetch, for all the distinct identifiers of the [setup_id]
    column in order of first appearance, whatever the outcome of the join. *)
Theorem small_join_fetches_once (W : Collaborators) (a : arguments)
    (output_format : string) (t t1 : trace) (evals : DataFrame)
    (ids : list pyval) :
  list_evaluations W a "dataframe" t = (Ok (Frame evals), t1) ->
  data evals <> [] ->
  column evals (KStr "setup_id") = Ok ids ->
  (List.length (unique ids) <= 100)%nat ->
  snd (list_evaluations_setups W a output_format t)
  = (t1 ++ [ListSetups (unique ids)])%list.
Proof.
  intros Hl Hne Hcol Hsmall.
  rewrite (@setup_join_run W a output_format t t1 evals Hl Hne).
  assert (Hu : unique ids <> []).
  { unfold column in Hcol.
    destruct (col_index (KStr "setup_id") (columns evals)); [|discriminate].
    inversion Hcol. destruct (data evals); [contradiction|].
    apply unique_nonempty. }
  assert (S : np_split (unique ids)
                ((Z.of_nat (List.length (unique ids)) - 1) / N_setups + 1)
              = Ok [unique ids]).
  { unfold np_split, N_setups.
    set (n := Z.of_nat (List.length (unique ids))).
    assert (Hn : 1 <= n <= 100).
    { unfold n. destruct (unique ids); [contradiction|].
      simpl List.length in *. lia. }
    replace ((n - 1) / 100 + 1) with 1
      by (rewrite (Z.div_small (n - 1) 100) by lia; reflexivity).
    change (1 =? 0) with false. change (1 <=? 0) with false.
    rewrite Z.mod_1_r, Z.div_1_r. change (0 =? 0) with true.
    change (Z.to_nat 1) with 1%nat. unfold n. rewrite Nat2Z.id.
    cbn [negb pieces]. now rewrite firstn_all. }
  unfold bind, join_setups, collect_setups, bind, lift. rewrite Hcol, S.
  cbn [fetch_setups]. unfold bind, list_setups, lift, ret.
  destruct (setups_table W t1 (unique ids)) as [fr|]; [|reflexivity].
  destruct (drop_column (KStr "flow_id") fr) as [fr'|]; [|reflexivity].
  destruct (column (concat empty_frame fr') (KStr "parameters")) as [col|];
    [|reflexivity].
  destruct (map_result flatten_parameters col) as [ps|]; [|reflexivity].
  destruct (merge_left evals _ (KStr "setup_id")); [|reflexivity].
  now destruct (String.eqb output_format "dataframe").
Qed.

Lemma small_join_fetches_once_witness :
  snd (list_evaluations_setups two_runs Fixture.precision "dict" [])
  = ([HttpGet "evaluation/list/function/precision/limit/10/offset/0/task/31"]
     ++ [ListSetups (unique [PInt 5; PInt 9])])%list.
Proof.
  eapply (@small_join_fetches_once two_runs Fixture.precision "dict" []).
  - vm_compute. reflexivity.
  - vm_compute. discriminate.
  - vm_compute. reflexivity.
  - vm_compute. lia.
Defined.

(** ** Rows of the joined table *)

Lemma joined_rows_keep_row (on : key) (right : DataFrame) (j : nat)
    (k : pyval) (lrow : list pyval) :
  exists cells rest,
    joined_rows on right j k lrow = ((lrow ++ cells)%list :: rest).
Proof.
  unfold joined_rows.
  destruct (filter (fun rrow => pyval_eqb k (nth j rrow NaN)) (data right))
    as [|m ms]; simpl; eexists; eexists; reflexivity.
Qed.

Lemma flat_map_keeps {A B} (g : A -> list B) (l : list A) :
  (forall x, g x <> []) -> (List.length l <= List.length (flat_map g l))%nat.
Proof.
  intro H. induction l as [|x l IH]; simpl; [lia|].
  rewrite length_app. specialize (H x).
  destruct (g x); [contradiction | simpl; lia].
Qed.

(** X14. Whatever the fetched setup table holds, the joined table has at
    least as many rows as the evaluation table, and every evaluation row is
    the beginning of one of its rows: the join drops no evaluation. *)
Theorem join_drops_no_evaluation (W : Collaborators) (a : arguments)
    (t t1 t' : trace) (evals df : DataFrame) :
  list_evaluations W a "dataframe" t = (Ok (Frame evals), t1) ->
  list_evaluations_setups W a "dataframe" t = (Ok (Frame df), t') ->
  (List.length (data evals) <= List.length (data df))%nat /\
  forall lrow,
    In lrow (data evals) -> exists cells, In (lrow ++ cells)%list (data df).
Proof.
  intros Hl H.
  destruct (data evals) as [|r0 rows] eqn:Hd.
  - split; [simpl; lia | intros lrow []].
  - assert (Hne : data evals <> []) by (rewrite Hd; discriminate).
    rewrite (@setup_join_run W a "dataframe" t t1 evals Hl Hne) in H.
    unfold bind, join_setups, bind, lift in H.
    destruct (collect_setups W evals t1) as [[setups|] t2]; [|discriminate H].
    destruct (merge_left evals setups (KStr "setup_id")) as [df'|] eqn:M;
      [|discriminate H].
    change (String.eqb "dataframe" "dataframe") with true in H.
    unfold ret in H. inversion H; subst df' t2. clear H.
    unfold merge_left in M.
    destruct (col_index (KStr "setup_id") (columns evals)) as [i|];
      [|discriminate M].
    destruct (col_index (KStr "setup_id") (columns setups)) as [j|];
      [|discriminate M].
    inversion M; subst df. clear M. cbn [data]. rewrite <- Hd. split.
    + apply flat_map_keeps. intro lrow.
      destruct (joined_rows_keep_row (KStr "setup_id") setups j
                  (nth i lrow NaN) lrow) as (cells & rest & ->).
      discriminate.
    + intros lrow I.
      destruct (joined_rows_keep_row (KStr "setup_id") setups j
                  (nth i lrow NaN) lrow) as (cells & rest & E).
      exists cells. apply in_flat_map. exists lrow. split; [assumption|].
      rewrite E. now left.
Qed.

Lemma join_drops_no_evaluation_witness :
  exists evals df,
    list_evaluations doubled_setup Fixture.precision "dataframe" []
    = (Ok (Frame evals),
       [HttpGet "evaluation/list/function/precision/limit/10/offset/0/task/31"])
    /\ fst (list_evaluations_setups doubled_setup Fixture.precision
                                    "dataframe" [])
       = Ok (Frame df) /\
    List.length (data evals) = 3%nat /\
    List.length (data df) = 6%nat /\
    (List.length (data evals) <= List.length (data df))%nat.
Proof.
  eexists. eexists. split; [vm_compute; reflexivity|].
  split; [vm_compute; reflexivity|].
  split; [reflexivity|]. split; [reflexivity|].
  eapply (proj1 (@join_drops_no_evaluation doubled_setup Fixture.precision
                   [] _ _ _ _ eq_refl eq_refl)).
Defined.

(** ** Keys of the mapping representation *)

Lemma setup_join_other_format (W : Collaborators) (a : arguments)
    (output_format : string) (t t' : trace) (df : DataFrame) :
  list_evaluations_setups W a "dataframe" t = (Ok (Frame df), t') ->
  output_format <> "dataframe" ->
  list_evaluations_setups W a output_format t
  = (Ok (Mapping (to_dict_index df)), t').
Proof.
  intros H Hne. apply String.eqb_neq in Hne.
  unfold list_evaluations_setups, bind in *. rewrite Hne.
  change (String.eqb "dataframe" "dataframe") with true in H.
  destruct (list_evaluations W a "dataframe" t) as [[evals|e] t1];
    [|discriminate H].
  destruct (joined_frame W evals t1) as [[df0|e] t2]; [|discriminate H].
  unfold ret in *. inversion H; subst. reflexivity.
Qed.

Lemma existsb_key_In (k : key) (l : list key) :
  existsb (key_eqb k) l = true <-> In k l.
Proof.
  rewrite existsb_exists. split.
  - intros (y & I & E). apply key_eqb_eq in E. now subst.
  - intro I. exists k. split; [assumption | apply key_eqb_refl].
Qed.

Lemma set_pair_keys (pairs : list (key * pyval)) :
  forall acc,
    NoDup (dict_keys acc) ->
    NoDup (dict_keys (fold_left set_pair pairs acc)) /\
    forall c,
      In c (dict_keys (fold_left set_pair pairs acc)) ->
      In c (dict_keys acc) \/ In c (map fst pairs).
Proof.
  induction pairs as [|[k v] pairs IH]; intros acc D; simpl.
  - split; [assumption | tauto].
  - assert (D' : NoDup (dict_keys (set_pair acc (k, v))) /\
                 forall c, In c (dict_keys (set_pair acc (k, v))) ->
                           In c (dict_keys acc) \/ c = k).
    { unfold set_pair. cbn [fst snd]. rewrite dict_keys_set.
      destruct (existsb (key_eqb k) (dict_keys acc)) eqn:E.
      - split; [assumption | tauto].
      - split.
        + apply NoDup_app; [assumption | repeat constructor; intros [] |].
          intros y Hy [<-|[]]. apply existsb_key_In in Hy. congruence.
        + intros c I. apply in_app_or in I. destruct I as [I|[<-|[]]]; tauto. }
    destruct D' as [D1 D2]. destruct (IH _ D1) as [N S].
    split; [assumption|]. intros c I.
    destruct (S c I) as [I'|I']; [|tauto].
    destruct (D2 c I'); [tauto | subst; tauto].
Qed.

Lemma to_dict_keys (cols : list key) (rows : list (list pyval)) :
  forall s,
    map fst
      (map (fun p => (KInt (Z.of_nat (fst p)), PDict (row_dict cols (snd p))))
           (combine (seq s (List.length rows)) rows))
    = map (fun i => KInt (Z.of_nat i)) (seq s (List.length rows)).
Proof.
  induction rows as [|r rows IH]; intro s; simpl; [reflexivity|].
  now rewrite IH.
Qed.

(** X15. The mapping the setup join returns outside the [dataframe] format
    has exactly the row numbers 0, 1, ... of the table as keys, in order;
    each value is a dictionary with pairwise distinct keys, every one of
    them a column label of the table. *)
Theorem mapping_keys_are_row_numbers (W : Collaborators) (a : arguments)
    (output_format : string) (t t' : trace) (df : DataFrame) :
  list_evaluations_setups W a "dataframe" t = (Ok (Frame df), t') ->
  output_format <> "dataframe" ->
  exists m,
    list_evaluations_setups W a output_format t = (Ok (Mapping m), t') /\
    dict_keys m = row_numbers df /\
    Forall (fun v =>
              exists d,
                v = PDict d /\ NoDup (dict_keys d) /\
                forall c, In c (dict_keys d) -> In c (columns df))
           (dict_values m).
Proof.
  intros H Hne. exists (to_dict_index df).
  split; [now apply setup_join_other_format|]. split.
  - unfold to_dict_index, row_numbers, dict_keys. apply to_dict_keys.
  - unfold to_dict_index, dict_values. rewrite map_map. cbn [snd].
    apply Forall_map. apply Forall_forall. intros [i row] _. cbn [snd].
    exists (row_dict (columns df) row). split; [reflexivity|].
    destruct (set_pair_keys (combine (columns df) row) [] (NoDup_nil _))
      as [N S].
    split; [exact N|]. intros c I.
    destruct (S c I) as [[]|I'].
    apply in_map_iff in I'. destruct I' as ([c' v] & <- & I').
    now apply in_combine_l in I'.
Qed.

Lemma mapping_keys_are_row_numbers_witness :
  exists m,
    list_evaluations_setups two_runs Fixture.precision "dict" []
    = (Ok (Mapping m),
       [HttpGet "evaluation/list/function/precision/limit/10/offset/0/task/31";
        ListSetups [PInt 5; PInt 9]]) /\
    dict_keys m = [KInt 0; KInt 1].
Proof.
  edestruct (@mapping_keys_are_row_numbers two_runs Fixture.precision "dict" [])
    as (m & Hrun & Hk & _).
  - vm_compute. reflexivity.
  - discriminate.
  - exists m. split; [exact Hrun | exact Hk].
Defined.

(** ** The network activity of the setup join *)

Lemma fetch_setups_only_fetches (W : Collaborators)
    (chunks : list (list pyval)) :
  forall setups t,
    exists fetched,
      snd (fetch_setups W chunks setups t)
      = (t ++ map ListSetups fetched)%list.
Proof.
  induction chunks as [|c chunks IH]; intros setups t; simpl.
  - exists []. simpl. now rewrite app_nil_r.
  - unfold bind, list_setups, lift.
    destruct (setups_table W t c) as [fr|];
      [|exists [c]; reflexivity].
    destruct (drop_column (KStr "flow_id") fr) as [fr'|];
      [|exists [c]; reflexivity].
    destruct (IH (concat setups fr') (t ++ [ListSetups c])%list)
      as [fetched E].
    exists (c :: fetched). rewrite E, <- app_assoc. reflexivity.
Qed.

Lemma collect_setups_only_fetches (W : Collaborators) (evals : DataFrame)
    (t : trace) :
  exists fetched,
    snd (collect_setups W evals t) = (t ++ map ListSetups fetched)%list.
Proof.
  unfold collect_setups, bind, lift, ret.
  destruct (column evals (KStr "setup_id")) as [ids|];
    [|exists []; simpl; now rewrite app_nil_r].
  destruct (np_split (unique ids) _) as [chunks|];
    [|exists []; simpl; now rewrite app_nil_r].
  destruct (fetch_setups_only_fetches W chunks empty_frame t) as [fetched E].
  exists fetched.
  destruct (fetch_setups W chunks empty_frame t) as [[fr|] t2];
    cbn [snd] in E; subst t2; [|reflexivity].
  destruct (column fr (KStr "parameters")) as [col|]; [|reflexivity].
  now destruct (map_result flatten_parameters col).
Qed.

(** X16. The only network activity the setup join adds to that of the
    evaluation fetch is setup fetches made after it; when the evaluation
    fetch raises, the join raises the same error and fetches no setup. *)
Theorem join_only_adds_setup_fetches (W : Collaborators) (a : arguments)
    (output_format : string) (t : trace) :
  exists fetched,
    snd (list_evaluations_setups W a output_format t)
    = (snd (list_evaluations W a "dataframe" t) ++ map ListSetups fetched)%list
    /\
    forall e,
      fst (list_evaluations W a "dataframe" t) = Raise e ->
      fetched = [] /\
      fst (list_evaluations_setups W a output_format t) = Raise e.
Proof.
  unfold list_evaluations_setups, bind.
  destruct (list_evaluations W a "dataframe" t) as [[evals|e] t1];
    cbn [fst snd].
  - assert (J : exists fetched,
               snd (joined_frame W evals t1)
               = (t1 ++ map ListSetups fetched)%list).
    { unfold joined_frame.
      destruct (negb (Nat.eqb (listing_len evals) 0));
        [|exists []; simpl; now rewrite app_nil_r].
      destruct evals as [d|df];
        [exists []; simpl; now rewrite app_nil_r|].
      unfold join_setups, bind, lift.
      destruct (collect_setups_only_fetches W df t1) as [fetched E].
      exists fetched.
      destruct (collect_setups W df t1) as [[setups|] t2];
        cbn [snd] in E; subst t2; [|reflexivity].
      now destruct (merge_left df setups (KStr "setup_id")). }
    destruct J as [fetched E]. exists fetched. split; [|discriminate].
    destruct (joined_frame W evals t1) as [[df|] t2]; cbn [snd] in E;
      subst t2; [|reflexivity].
    now destruct (String.eqb output_format "dataframe").
  - exists []. split; [simpl; now rewrite app_nil_r|].
    intros e' E. inversion E. now split.
Qed.

Lemma join_only_adds_setup_fetches_witness :
  exists fetched,
    snd (list_evaluations_setups two_runs Fixture.precision "dict" [])
    = (snd (list_evaluations two_runs Fixture.precision "dataframe" [])
       ++ map ListSetups fetched)%list.
Proof.
  destruct (@join_only_adds_setup_fetches two_runs Fixture.precision "dict" [])
    as (fetched & E & _).
  now exists fetched.
Defined.

(** X17. The output format of the setup join changes the representation of
    the result only: every format makes the same network calls, and raises
    the same error when one is raised. *)
Theorem join_format_changes_representation_only (W : Collaborators)
    (a : arguments) (f1 f2 : string) (t : trace) :
  snd (list_evaluations_setups W a f1 t)
  = snd (list_evaluations_setups W a f2 t) /\
  forall e,
    fst (list_evaluations_setups W a f1 t) = Raise e <->
    fst (list_evaluations_setups W a f2 t) = Raise e.
Proof.
  unfold list_evaluations_setups, bind.
  destruct (list_evaluations W a "dataframe" t) as [[evals|x] t1];
    [|split; [reflexivity | tauto]].
  destruct (joined_frame W evals t1) as [[df|x] t2];
    [|split; [reflexivity | tauto]].
  destruct (String.eqb f1 "dataframe"), (String.eqb f2 "dataframe");
    split; try reflexivity; intro e; split; discriminate.
Qed.

(** ** Columns the fetched setup table must have *)

Lemma single_section (ids : list pyval) :
  ids <> [] ->
  (List.length ids <= 100)%nat ->
  np_split ids ((Z.of_nat (List.length ids) - 1) / N_setups + 1) = Ok [ids].
Proof.
  intros Hne Hsmall. unfold np_split, N_setups.
  set (n := Z.of_nat (List.length ids)).
  assert (Hn : 1 <= n <= 100).
  { unfold n. destruct ids; [contradiction|]. simpl List.length in *. lia. }
  replace ((n - 1) / 100 + 1) with 1
    by (rewrite (Z.div_small (n - 1) 100) by lia; reflexivity).
  change (1 =? 0) with false. change (1 <=? 0) with false.
  rewrite Z.mod_1_r, Z.div_1_r. change (0 =? 0) with true.
  change (Z.to_nat 1) with 1%nat. unfold n. rewrite Nat2Z.id.
  cbn [negb pieces]. now rewrite firstn_all.
Qed.

Lemma col_index_absent (c : key) (cols : list key) :
  ~ In c cols -> col_index c cols = None.
Proof.
  induction cols as [|c' cols IH]; simpl; intro H; [reflexivity|].
  destruct (key_eqb c c') eqn:E.
  - apply key_eqb_eq in E. subst. tauto.
  - rewrite IH by tauto. reflexivity.
Qed.

Lemma concat_empty_columns (df : DataFrame) :
  columns (concat empty_frame df) = columns df.
Proof.
  unfold concat. cbn [columns empty_frame app existsb negb].
  induction (columns df) as [|c cols IH]; simpl; [reflexivity|].
  now rewrite IH.
Qed.

(** X18. The table a setup fetch returns must carry the [flow_id] and
    [parameters] columns: with at most 100 distinct setups, a table without
    [flow_id] makes the join raise the key error of [drop], whose argument
    is the message that ['flow_id'] is not found in the axis, after that one
    fetch, and a table with [flow_id] and without [parameters] a key error
    for [parameters]. *)
Theorem setup_table_needs_columns (W : Collaborators) (a : arguments)
    (output_format : string) (t t1 : trace) (evals : DataFrame)
    (ids : list pyval) (fr : DataFrame) :
  list_evaluations W a "dataframe" t = (Ok (Frame evals), t1) ->
  data evals <> [] ->
  column evals (KStr "setup_id") = Ok ids ->
  (List.length (unique ids) <= 100)%nat ->
  setups_table W t1 (unique ids) = Ok fr ->
  (~ In (KStr "flow_id") (columns fr) ->
   list_evaluations_setups W a output_format t
   = (Raise (KeyError (KStr "['flow_id'] not found in axis")),
      (t1 ++ [ListSetups (unique ids)])%list)) /\
  (In (KStr "flow_id") (columns fr) ->
   ~ In (KStr "parameters") (columns fr) ->
   list_evaluations_setups W a output_format t
   = (Raise (KeyError (KStr "parameters")),
      (t1 ++ [ListSetups (unique ids)])%list)).
Proof.
  intros Hl Hne Hcol Hsmall Hfr.
  rewrite (@setup_join_run W a output_format t t1 evals Hl Hne).
  assert (Hu : unique ids <> []).
  { unfold column in Hcol.
    destruct (col_index (KStr "setup_id") (columns evals)); [|discriminate].
    inversion Hcol. destruct (data evals); [contradiction|].
    apply unique_nonempty. }
  unfold bind, join_setups, collect_setups, bind, lift.
  rewrite Hcol, (single_section Hu Hsmall).
  cbn [fetch_setups]. unfold bind, list_setups, lift, ret. rewrite Hfr.
  unfold drop_column. split.
  - intro Hno.
    destruct (existsb (key_eqb (KStr "flow_id")) (columns fr)) eqn:E;
      [|reflexivity].
    apply existsb_key_In in E. contradiction.
  - intros Hin Hno. apply existsb_key_In in Hin. rewrite Hin.
    unfold column. rewrite concat_empty_columns. cbn [columns].
    rewrite col_index_absent; [reflexivity|].
    intro I. apply filter_In in I. tauto.
Qed.

Lemma setup_table_needs_columns_witness :
  list_evaluations_setups flowless_setups Fixture.precision "dataframe" []
  = (Raise (KeyError (KStr "['flow_id'] not found in axis")),
     ([HttpGet "evaluation/list/function/precision/limit/10/offset/0/task/31"]
      ++ [ListSetups (unique [PInt 5; PInt 9])])%list).
Proof.
  edestruct (@setup_table_needs_columns flowless_setups Fixture.precision
               "dataframe" []) as [Hflow _].
  - vm_compute. reflexivity.
  - vm_compute. discriminate.
  - vm_compute. reflexivity.
  - vm_compute. lia.
  - reflexivity.
  - apply Hflow. simpl. intuition discriminate.
Defined.
